(** * Appointment slot availability of the MyMech Autocare backend

    A shallow embedding of the two request handlers that answer "which hourly
    slots are open on this date":

    - [AppointmentController.getAvailableTimeSlots], the handler of
      [GET /appointments/available-slots];
    - [ChatbotService] ([extractDateAndIntent], [getAvailableTimeSlots],
      [processChatMessage]) with its HTTP front
      [ChatbotController.handleChatMessage];
    - [LegacyChatbotService.getAvailableTimeSlots], the earlier variant of the
      chat service's slot lookup that the repository still carries.

    JavaScript values are an inductive type, a string is a [string] whose
    characters are code units below 256, a number is an integer, a [Date] is
    either invalid or a time value in milliseconds.  The language model, the
    Prisma client and the wall clock form a [World] that every handler reads;
    each call to the model or to Prisma is recorded in a trace.  Console
    output is not modelled. *)

From Stdlib Require Import ZArith List String Ascii Bool Lia DecimalString Permutation Sorted.
Import ListNotations.

Local Open Scope string_scope.
Local Open Scope Z_scope.

(** ** JavaScript values *)

#[warnings="-register-all"]
Inductive JsValue : Type :=
| JUndefined
| JNull
| JBool (b : bool)
| JNumber (n : Z)
| JString (s : string)
| JArray (items : list JsValue)
| JObject (fields : list (string * JsValue)).

(** [ToBoolean]: what [!x], [x && y] and [x || y] test. *)
Definition truthy (v : JsValue) : bool :=
  match v with
  | JUndefined | JNull => false
  | JBool b => b
  | JNumber n => negb (n =? 0)
  | JString s => negb (s =? "")%string
  | JArray _ | JObject _ => true
  end.

(** [a || b] *)
Definition js_or (a b : JsValue) : JsValue := if truthy a then a else b.

Fixpoint assoc (k : string) (fields : list (string * JsValue)) : JsValue :=
  match fields with
  | [] => JUndefined
  | (k', v) :: rest => if (k =? k')%string then v else assoc k rest
  end.

(** Property read [v.k] on a value that is not [null] or [undefined]; the
    own properties of an object are its fields, in insertion order. *)
Definition get (k : string) (v : JsValue) : JsValue :=
  match v with
  | JObject fields => assoc k fields
  | _ => JUndefined
  end.

(** Assignment [o.k = v] as JSON.parse performs it on a repeated key: the
    first position is kept, the value replaced. *)
Fixpoint set_field (k : string) (v : JsValue) (fields : list (string * JsValue))
  : list (string * JsValue) :=
  match fields with
  | [] => [(k, v)]
  | (k', v') :: rest =>
      if (k =? k')%string then (k', v) :: rest else (k', v') :: set_field k v rest
  end.

(** ** Thrown errors *)

Record JsError : Type := { message : string }.

Inductive Exc (A : Type) : Type :=
| Ok (a : A)
| Throw (e : JsError).
Arguments Ok {A} a.
Arguments Throw {A} e.

(** ** Strings *)

Module Str.

(** The white space and line terminators of [String.prototype.trim] among
    the code units below 256: TAB, LF, VT, FF, CR, SP and NBSP. *)
Definition isWhiteSpace (c : ascii) : bool :=
  let n := nat_of_ascii c in
  ((9 <=? n) && (n <=? 13))%nat || (n =? 32)%nat || (n =? 160)%nat.

Fixpoint trimStart (s : string) : string :=
  match s with
  | String c rest => if isWhiteSpace c then trimStart rest else s
  | EmptyString => EmptyString
  end.

Fixpoint trimEnd (s : string) : string :=
  match s with
  | String c rest =>
      match trimEnd rest with
      | EmptyString => if isWhiteSpace c then EmptyString else String c EmptyString
      | t => String c t
      end
  | EmptyString => EmptyString
  end.

Definition trim (s : string) : string := trimEnd (trimStart s).

(** [s.includes(sub)] *)
Fixpoint includes (s sub : string) : bool :=
  prefix sub s ||
  match s with
  | String _ rest => includes rest sub
  | EmptyString => false
  end.

(** [n.toString()] for an integer. *)
Definition ofNumber (n : Z) : string := NilZero.string_of_int (Z.to_int n).

Fixpoint repeat (c : ascii) (n : nat) : string :=
  match n with
  | O => EmptyString
  | S k => String c (repeat c k)
  end.

(** [s.padStart(n, c)] with a one-character filler. *)
Definition padStart (n : nat) (c : ascii) (s : string) : string :=
  repeat c (n - String.length s) ++ s.

(** [s.split(sep)[0]] for a one-character separator. *)
Fixpoint beforeSep (sep : ascii) (s : string) : string :=
  match s with
  | String c rest => if Ascii.eqb c sep then EmptyString else String c (beforeSep sep rest)
  | EmptyString => EmptyString
  end.

(** The regular expression [/\{[\s\S]*\}/]: the match starts at the first
    opening brace and, the star being greedy, ends at the last closing brace
    after it. *)
Fixpoint fromFirstOpen (s : string) : option string :=
  match s with
  | String c rest => if Ascii.eqb c "{" then Some rest else fromFirstOpen rest
  | EmptyString => None
  end.

Fixpoint uptoLastClose (s : string) : option string :=
  match s with
  | String c rest =>
      match uptoLastClose rest with
      | Some p => Some (String c p)
      | None => if Ascii.eqb c "}" then Some (String c EmptyString) else None
      end
  | EmptyString => None
  end.

Definition matchBraces (s : string) : option string :=
  match fromFirstOpen s with
  | Some rest =>
      match uptoLastClose rest with
      | Some p => Some (String "{" p)
      | None => None
      end
  | None => None
  end.

End Str.

(** [v.trim()]: only a string has the method; on any other value that got
    past a truthiness test the call is a [TypeError]. *)
Definition js_trim (v : JsValue) : Exc string :=
  match v with
  | JString s => Ok (Str.trim s)
  | _ => Throw {| message := "message.trim is not a function" |}
  end.

(** ** Dates *)

Inductive JsDate : Type :=
| InvalidDate
| TimeValue (t : Z).

Definition msPerMinute : Z := 60000.
Definition msPerHour : Z := 3600000.
Definition msPerDay : Z := 86400000.

(** What the host gives a program: its zone (a fixed offset of local time from
    UTC, in milliseconds), the one-argument [Date] constructor and
    [JSON.parse] ([None] for a [SyntaxError]). *)
Class JsRuntime : Type := {
  LocalTZA : Z;
  Date_new : JsValue -> JsDate;
  JSON_parse : string -> option JsValue
}.

Section DateMethods.
Context {rt : JsRuntime}.

Definition LocalTime (t : Z) : Z := t + LocalTZA.
Definition UTC (t : Z) : Z := t - LocalTZA.
Definition Day (t : Z) : Z := t / msPerDay.
Definition WeekDay (t : Z) : Z := (Day t + 4) mod 7.
Definition HourFromTime (t : Z) : Z := (t / msPerHour) mod 24.
Definition MinFromTime (t : Z) : Z := (t / msPerMinute) mod 60.

(** [d.getDay()], [None] for [NaN]. *)
Definition getDay (d : JsDate) : option Z :=
  match d with
  | InvalidDate => None
  | TimeValue t => Some (WeekDay (LocalTime t))
  end.

(** [d.getHours()] and [d.getMinutes()] of a valid date. *)
Definition getHours (t : Z) : Z := HourFromTime (LocalTime t).
Definition getMinutes (t : Z) : Z := MinFromTime (LocalTime t).

(** [d.setHours(h, m, s, ms)] *)
Definition setHours (d : JsDate) (h m s ms : Z) : JsDate :=
  match d with
  | InvalidDate => InvalidDate
  | TimeValue t =>
      TimeValue (UTC (Day (LocalTime t) * msPerDay
                      + h * msPerHour + m * msPerMinute + s * 1000 + ms))
  end.

End DateMethods.

(** ** The booking store *)

Module Prisma.

(** The [AppointmentStatus] enum of the schema. *)
Inductive AppointmentStatus : Type :=
| scheduled | confirmed | in_progress | completed | cancelled.

Definition status_eqb (a b : AppointmentStatus) : bool :=
  match a, b with
  | scheduled, scheduled | confirmed, confirmed | in_progress, in_progress
  | completed, completed | cancelled, cancelled => true
  | _, _ => false
  end.

(** A row of the [appointments] table, with the two columns the slot
    lookup filters on; [scheduled_date] is a time value. *)
Record appointment : Type := {
  scheduled_date : Z;
  status : AppointmentStatus
}.

(** The [status] condition of a [where] clause. *)
Inductive StatusFilter : Type :=
| status_in (allowed : list AppointmentStatus)
| status_not (excluded : AppointmentStatus).

(** [{ scheduledDate: { gte, lte }, status }] *)
Record Where : Type := {
  gte : JsDate;
  lte : JsDate;
  status_filter : StatusFilter
}.

(** What [select: { scheduledDate: true }] returns for a row. *)
Record Row : Type := { scheduledDate : Z }.

Definition status_matches (f : StatusFilter) (s : AppointmentStatus) : bool :=
  match f with
  | status_in allowed => existsb (status_eqb s) allowed
  | status_not excluded => negb (status_eqb s excluded)
  end.

Definition matches (lo hi : Z) (f : StatusFilter) (a : appointment) : bool :=
  (lo <=? scheduled_date a) && (scheduled_date a <=? hi)
  && status_matches f (status a).

(** [prisma.appointment.findMany] over a table.  The client validates its
    arguments and throws on a [Date] that is invalid. *)
Definition findMany (table : list appointment) (w : Where) : Exc (list Row) :=
  match gte w, lte w with
  | TimeValue lo, TimeValue hi =>
      Ok (map (fun a => {| scheduledDate := scheduled_date a |})
              (filter (matches lo hi (status_filter w)) table))
  | _, _ => Throw {| message := "Provided Date object is invalid" |}
  end.

End Prisma.

(** ** The language model *)

(** A prompt template with the values it is invoked on. *)
Inductive Prompt : Type :=
| extractionPrompt (message : JsValue) (currentDate : string)
| sundayResponsePrompt (userFriendlyDate dayName : JsValue)
| responsePrompt (date userFriendlyDate dayName : JsValue) (businessHours slots : string)
| generalPrompt (message intent : JsValue).

(** ** Handlers as readers of the world *)

(** The collaborators of a request: the model ([chain.invoke], giving
    [response.content] or throwing), the Prisma client and the clock
    ([new Date().toISOString()]). *)
Record World : Type := {
  model_invoke : Prompt -> Exc string;
  appointment_findMany : Prisma.Where -> Exc (list Prisma.Row);
  now_toISOString : string
}.

Inductive Event : Type :=
| ModelCall (p : Prompt)
| FindManyCall (w : Prisma.Where).

(** An asynchronous function: given the world, the calls it made, in order,
    and its result or the error it threw. *)
Definition IO (A : Type) : Type := World -> list Event * Exc A.

Definition ret {A} (a : A) : IO A := fun _ => ([], Ok a).

Definition throw {A} (e : JsError) : IO A := fun _ => ([], Throw e).

Definition bind {A B} (m : IO A) (k : A -> IO B) : IO B :=
  fun w =>
    match m w with
    | (tr, Ok a) => let (tr', r) := k a w in ((tr ++ tr')%list, r)
    | (tr, Throw e) => (tr, Throw e)
    end.

(** [try { m } catch (error) { h error }] *)
Definition try_catch {A} (m : IO A) (h : JsError -> IO A) : IO A :=
  fun w =>
    match m w with
    | (tr, Ok a) => (tr, Ok a)
    | (tr, Throw e) => let (tr', r) := h e w in ((tr ++ tr')%list, r)
    end.

(** A synchronous step that may throw. *)
Definition lift {A} (r : Exc A) : IO A := fun _ => ([], r).

Definition invoke (p : Prompt) : IO string :=
  fun w => ([ModelCall p], model_invoke w p).

Definition findMany (q : Prisma.Where) : IO (list Prisma.Row) :=
  fun w => ([FindManyCall q], appointment_findMany w q).

Definition currentDate : IO string :=
  fun w => ([], Ok (Str.beforeSep "T" (now_toISOString w))).

Declare Scope io_scope.
Delimit Scope io_scope with io.
Notation "x <- m ;; k" := (bind m (fun x => k))
  (at level 100, m at next level, right associativity) : io_scope.
Local Open Scope io_scope.

(** ** HTTP *)

Record Request : Type := {
  query : JsValue;
  body : JsValue
}.

(** [res.status(code).json(payload)] *)
Record Response : Type := {
  statusCode : Z;
  json : JsValue
}.

Definition respond (code : Z) (payload : JsValue) : Response :=
  {| statusCode := code; json := payload |}.

(** [const { k } = v]: a [TypeError] on [null] and [undefined]. *)
Definition destructure (k : string) (v : JsValue) : Exc JsValue :=
  match v with
  | JUndefined | JNull =>
      Throw {| message := "Cannot destructure property of undefined or null" |}
  | _ => Ok (get k v)
  end.

(** [x === n] for a number [x] that may be [NaN]. *)
Definition strictEq (x : option Z) (n : Z) : bool :=
  match x with
  | Some m => m =? n
  | None => false
  end.

(** [days[dayOfWeek]] *)
Definition dayNames : list string :=
  ["Sunday"; "Monday"; "Tuesday"; "Wednesday"; "Thursday"; "Friday"; "Saturday"].

Definition dayAt (dayOfWeek : option Z) : JsValue :=
  match dayOfWeek with
  | Some n =>
      if n <? 0 then JUndefined
      else match nth_error dayNames (Z.to_nat n) with
           | Some name => JString name
           | None => JUndefined
           end
  | None => JUndefined
  end.

(** [hours.includes(h)] on an array of integers. *)
Definition includes (hours : list Z) (h : Z) : bool := existsb (Z.eqb h) hours.

(** The elements of [allSlots]. *)
Record TimeSlot : Type := {
  hour : Z;
  time : string;
  display : string
}.

Definition slotJson (slot : TimeSlot) : JsValue :=
  JObject [("hour", JNumber (hour slot));
           ("time", JString (time slot));
           ("display", JString (display slot))].

(** The slot literal both handlers push, over the module's own
    [formatHourDisplay]. *)
Definition slotAt (formatHourDisplay : Z -> string) (hour : Z) : TimeSlot :=
  {| hour := hour;
     time := Str.padStart 2 "0" (Str.ofNumber hour) ++ ":00";
     display := formatHourDisplay hour |}.

(** [for (let hour = startHour; hour < endHour; hour++) allSlots.push(..)];
    [n] bounds the number of iterations. *)
Fixpoint pushSlots (formatHourDisplay : Z -> string) (n : nat) (hour endHour : Z)
  : list TimeSlot :=
  match n with
  | O => []
  | S k =>
      if hour <? endHour
      then slotAt formatHourDisplay hour :: pushSlots formatHourDisplay k (hour + 1) endHour
      else []
  end.

Definition generateSlots (formatHourDisplay : Z -> string) (startHour endHour : Z)
  : list TimeSlot :=
  pushSlots formatHourDisplay (Z.to_nat (endHour - startHour)) startHour endHour.

(** ** The booking API: [appointmentController.getAvailableTimeSlots] *)

Module AppointmentController.
Section Handlers.
Context {rt : JsRuntime}.

Definition formatHourDisplay (hour : Z) : string :=
  let period := if 12 <=? hour then "PM" else "AM" in
  let displayHour :=
    if 12 <? hour then hour - 12 else if hour =? 0 then 12 else hour in
  Str.ofNumber displayHour ++ ":00 " ++ period.

Definition getDayName (dayOfWeek : option Z) : JsValue := dayAt dayOfWeek.

Definition blockingStatuses : list Prisma.AppointmentStatus :=
  [Prisma.scheduled; Prisma.confirmed; Prisma.in_progress].

Definition getAvailableTimeSlots (req : Request) : IO Response :=
  try_catch
    (date <- lift (destructure "date" (query req)) ;;
     if negb (truthy date) then
       ret (respond 400 (JObject [("success", JBool false);
                                  ("error", JString "Date is required")]))
     else
       let selectedDate := Date_new date in
       let dayOfWeek := getDay selectedDate in
       if strictEq dayOfWeek 0 then
         ret (respond 200
                (JObject [("success", JBool true);
                          ("data", JObject
                             [("availableSlots", JArray []);
                              ("message",
                               JString "Service station is closed on Sundays")])]))
       else
         let '(startHour, endHour) :=
           if strictEq dayOfWeek 6 then (8, 19) else (9, 18) in
         let allSlots := generateSlots formatHourDisplay startHour endHour in
         let startOfDay := setHours selectedDate 0 0 0 0 in
         let endOfDay := setHours selectedDate 23 59 59 999 in
         existingAppointments <-
           findMany {| Prisma.gte := startOfDay;
                       Prisma.lte := endOfDay;
                       Prisma.status_filter := Prisma.status_in blockingStatuses |} ;;
         let bookedHours :=
           map (fun apt => getHours (Prisma.scheduledDate apt)) existingAppointments in
         let availableSlots :=
           filter (fun slot => negb (includes bookedHours (hour slot))) allSlots in
         ret (respond 200
                (JObject [("success", JBool true);
                          ("data", JObject
                             [("date", date);
                              ("dayOfWeek", getDayName dayOfWeek);
                              ("businessHours",
                               JString (formatHourDisplay startHour ++ " - "
                                        ++ formatHourDisplay endHour));
                              ("availableSlots", JArray (map slotJson availableSlots));
                              ("totalSlots", JNumber (Z.of_nat (List.length allSlots)));
                              ("bookedSlots", JNumber (Z.of_nat (List.length bookedHours)))])])))
    (fun error =>
       ret (respond 500 (JObject [("success", JBool false);
                                  ("error", JString "Failed to fetch available time slots")]))).

End Handlers.
End AppointmentController.

(** ** The chat assistant: [chatbotService] *)

Module ChatbotService.
Section Service.
Context {rt : JsRuntime}.

Definition fallbackIntent : JsValue :=
  JObject [("intent", JString "other"); ("date", JNull); ("userFriendlyDate", JNull)].

Definition extractDateAndIntent (userMessage : JsValue) : IO JsValue :=
  today <- currentDate ;;
  response <- invoke (extractionPrompt userMessage today) ;;
  try_catch
    (let content := Str.trim response in
     match Str.matchBraces content with
     | Some jsonMatch =>
         match JSON_parse jsonMatch with
         | Some parsed => ret parsed
         | None => throw {| message := "Unexpected token in JSON" |}
         end
     | None => ret fallbackIntent
     end)
    (fun error => ret fallbackIntent).

Definition formatHourDisplay (hour : Z) : string :=
  let period := if 12 <=? hour then "PM" else "AM" in
  let displayHour :=
    if 12 <? hour then hour - 12 else if hour =? 0 then 12 else hour in
  Str.ofNumber displayHour ++ ":00 " ++ period.

Definition blockingStatuses : list Prisma.AppointmentStatus :=
  [Prisma.scheduled; Prisma.confirmed; Prisma.in_progress].

Definition getAvailableTimeSlots (date : JsValue) : IO (list string) :=
  try_catch
    (let selectedDate := Date_new date in
     let dayOfWeek := getDay selectedDate in
     if strictEq dayOfWeek 0 then ret []
     else
       let '(startHour, endHour) :=
         if strictEq dayOfWeek 6 then (8, 19) else (9, 18) in
       let allSlots := generateSlots formatHourDisplay startHour endHour in
       let startOfDay := setHours selectedDate 0 0 0 0 in
       let endOfDay := setHours selectedDate 23 59 59 999 in
       existingAppointments <-
         findMany {| Prisma.gte := startOfDay;
                     Prisma.lte := endOfDay;
                     Prisma.status_filter := Prisma.status_in blockingStatuses |} ;;
       let bookedHours :=
         map (fun apt => getHours (Prisma.scheduledDate apt)) existingAppointments in
       let availableSlots :=
         map display
             (filter (fun slot => negb (includes bookedHours (hour slot))) allSlots) in
       ret availableSlots)
    (fun error => throw error).

Definition generateTimeSlotResponse (timeSlots : list string)
           (date userFriendlyDate : JsValue) : IO string :=
  let selectedDate := Date_new date in
  let dayOfWeek := getDay selectedDate in
  let dayName := dayAt dayOfWeek in
  if strictEq dayOfWeek 0 then
    invoke (sundayResponsePrompt (js_or userFriendlyDate date) dayName)
  else
    let businessHours :=
      if strictEq dayOfWeek 6 then "8:00 AM - 7:00 PM" else "9:00 AM - 6:00 PM" in
    let slotsText :=
      if (0 <? List.length timeSlots)%nat then String.concat ", " timeSlots
      else "Unfortunately, all slots are fully booked" in
    invoke (responsePrompt date (js_or userFriendlyDate date) dayName
                           businessHours slotsText).

Definition generateGeneralResponse (userMessage intent : JsValue) : IO string :=
  invoke (generalPrompt userMessage intent).

Definition isAppointmentQuery (intent : JsValue) : bool :=
  match intent with
  | JString s => (s =? "appointment_query")%string
  | _ => false
  end.

Definition processChatMessage (userMessage : JsValue) : IO JsValue :=
  try_catch
    (extracted <- extractDateAndIntent userMessage ;;
     intent <- lift (destructure "intent" extracted) ;;
     date <- lift (destructure "date" extracted) ;;
     userFriendlyDate <- lift (destructure "userFriendlyDate" extracted) ;;
     if isAppointmentQuery intent && truthy date then
       availableSlots <- getAvailableTimeSlots date ;;
       reply <- generateTimeSlotResponse availableSlots date userFriendlyDate ;;
       ret (JObject [("reply", JString reply);
                     ("intent", intent);
                     ("availableSlots", JArray (map JString availableSlots));
                     ("date", date)])
     else
       reply <- generateGeneralResponse userMessage intent ;;
       ret (JObject [("reply", JString reply);
                     ("intent", intent);
                     ("availableSlots", JNull);
                     ("date", JNull)]))
    (fun error => throw error).

End Service.
End ChatbotService.

(** ** The chat endpoint: [chatbotController.handleChatMessage] *)

Module ChatbotController.
Section Handlers.
Context {rt : JsRuntime}.

Definition errorMessageFor (error : JsError) : string :=
  if negb (message error =? "")%string && Str.includes (message error) "API key expired"
  then "The AI service API key has expired. Please contact the administrator."
  else if negb (message error =? "")%string && Str.includes (message error) "quota"
  then "The AI service quota has been exceeded. Please try again later."
  else if negb (message error =? "")%string && Str.includes (message error) "overloaded"
  then "The AI service is currently overloaded. Please try again in a moment."
  else "Failed to process message. Please try again.".

Definition handleChatMessage (req : Request) : IO Response :=
  try_catch
    (message <- lift (destructure "message" (body req)) ;;
     if negb (truthy message) then
       ret (respond 400 (JObject [("success", JBool false);
                                  ("error", JString "Message is required")]))
     else
       trimmed <- lift (js_trim message) ;;
       if (trimmed =? "")%string then
         ret (respond 400 (JObject [("success", JBool false);
                                    ("error", JString "Message is required")]))
       else
         result <- ChatbotService.processChatMessage message ;;
         ret (respond 200 (JObject [("success", JBool true); ("data", result)])))
    (fun error =>
       ret (respond 500 (JObject [("success", JBool false);
                                  ("error", JString (errorMessageFor error))]))).

End Handlers.
End ChatbotController.

(** ** The earlier chat service *)

Module LegacyChatbotService.
Section Service.
Context {rt : JsRuntime}.

Definition businessHours : list string :=
  ["09:00"; "10:00"; "11:00"; "12:00"; "13:00"; "14:00"; "15:00"; "16:00"; "17:00"].

Definition bookedSlot (apt : Prisma.Row) : string :=
  let time := Prisma.scheduledDate apt in
  Str.padStart 2 "0" (Str.ofNumber (getHours time)) ++ ":"
  ++ Str.padStart 2 "0" (Str.ofNumber (getMinutes time)).

(** [slots.includes(slot)] on an array of strings. *)
Definition includesString (slots : list string) (slot : string) : bool :=
  existsb (String.eqb slot) slots.

Definition getAvailableTimeSlots (date : JsValue) : IO (list string) :=
  try_catch
    (let startOfDay := setHours (Date_new date) 0 0 0 0 in
     let endOfDay := setHours (Date_new date) 23 59 59 999 in
     existingAppointments <-
       findMany {| Prisma.gte := startOfDay;
                   Prisma.lte := endOfDay;
                   Prisma.status_filter := Prisma.status_not Prisma.cancelled |} ;;
     let bookedSlots := map bookedSlot existingAppointments in
     let availableSlots :=
       filter (fun slot => negb (includesString bookedSlots slot)) businessHours in
     ret availableSlots)
    (fun error => throw error).

End Service.
End LegacyChatbotService.

(** ** A host to run the handlers on

    [Host.runtime] instantiates [JsRuntime] with the parts of the language
    standard the examples below need: the date-only form [YYYY-MM-DD] of the
    date-time string format, read as UTC midnight, and the JSON grammar over
    integers.  A date string outside that form, or a day beyond its month's
    length, is left by the standard to the implementation; the instance calls
    it invalid and the examples use none but strings without a digit.  An
    array or object argument of [Date] and a JSON number with a fraction or an
    exponent are outside the instance too. *)

Module Host.

(** The double quote. *)
Definition quote : ascii := ascii_of_nat 34.

Definition digit (c : ascii) : option Z :=
  let n := nat_of_ascii c in
  if ((48 <=? n) && (n <=? 57))%nat then Some (Z.of_nat (n - 48)) else None.

Fixpoint digits (acc : Z) (s : string) : option Z :=
  match s with
  | EmptyString => Some acc
  | String c rest =>
      match digit c with
      | Some d => digits (10 * acc + d) rest
      | None => None
      end
  end.

Definition isLeap (y : Z) : bool :=
  ((y mod 4 =? 0) && negb (y mod 100 =? 0)) || (y mod 400 =? 0).

Definition daysInMonth (y m : Z) : Z :=
  if m =? 2 then (if isLeap y then 29 else 28)
  else if (m =? 4) || (m =? 6) || (m =? 9) || (m =? 11) then 30
  else 31.

Definition DayFromYear (y : Z) : Z :=
  365 * (y - 1970) + (y - 1969) / 4 - (y - 1901) / 100 + (y - 1601) / 400.

Fixpoint daysBeforeMonth (y : Z) (m : nat) : Z :=
  match m with
  | O => 0
  | S k => daysBeforeMonth y k + daysInMonth y (Z.of_nat (S k))
  end.

Definition MakeDay (y m d : Z) : Z :=
  DayFromYear y + daysBeforeMonth y (Z.to_nat (m - 1)) + (d - 1).

Definition parseDateOnly (s : string) : JsDate :=
  if negb (String.length s =? 10)%nat then InvalidDate
  else
    match digits 0 (substring 0 4 s), digits 0 (substring 5 2 s),
          digits 0 (substring 8 2 s) with
    | Some y, Some m, Some d =>
        if (substring 4 1 s =? "-")%string && (substring 7 1 s =? "-")%string
           && (1 <=? m) && (m <=? 12) && (1 <=? d) && (d <=? daysInMonth y m)
        then TimeValue (MakeDay y m d * msPerDay)
        else InvalidDate
    | _, _, _ => InvalidDate
    end.

Definition TimeClip (t : Z) : JsDate :=
  if Z.abs t <=? 8640000000000000 then TimeValue t else InvalidDate.

Definition newDate (v : JsValue) : JsDate :=
  match v with
  | JString s => parseDateOnly s
  | JNumber n => TimeClip n
  | JNull => TimeValue 0
  | JBool b => TimeValue (if b then 1 else 0)
  | JUndefined | JArray _ | JObject _ => InvalidDate
  end.

(** *** JSON *)

Definition isJsonSpace (c : ascii) : bool :=
  let n := nat_of_ascii c in
  (n =? 32)%nat || (n =? 9)%nat || (n =? 10)%nat || (n =? 13)%nat.

Fixpoint skipWs (s : string) : string :=
  match s with
  | String c rest => if isJsonSpace c then skipWs rest else s
  | EmptyString => EmptyString
  end.

Definition hexDigit (c : ascii) : option nat :=
  let n := nat_of_ascii c in
  if ((48 <=? n) && (n <=? 57))%nat then Some (n - 48)%nat
  else if ((65 <=? n) && (n <=? 70))%nat then Some (n - 55)%nat
  else if ((97 <=? n) && (n <=? 102))%nat then Some (n - 87)%nat
  else None.

Definition escape (c : ascii) : option ascii :=
  if Ascii.eqb c quote then Some quote
  else if Ascii.eqb c "\" then Some "\"%char
  else if Ascii.eqb c "/" then Some "/"%char
  else if Ascii.eqb c "b" then Some (ascii_of_nat 8)
  else if Ascii.eqb c "f" then Some (ascii_of_nat 12)
  else if Ascii.eqb c "n" then Some (ascii_of_nat 10)
  else if Ascii.eqb c "r" then Some (ascii_of_nat 13)
  else if Ascii.eqb c "t" then Some (ascii_of_nat 9)
  else None.

(** The characters of a string literal after its opening quote, and what
    follows the closing quote. *)
Fixpoint stringBody (s : string) : option (string * string) :=
  match s with
  | EmptyString => None
  | String c rest =>
      if Ascii.eqb c quote then Some (EmptyString, rest)
      else if (nat_of_ascii c <? 32)%nat then None
      else if Ascii.eqb c "\" then
        match rest with
        | String "u" (String a (String b (String x (String y rest')))) =>
            match hexDigit a, hexDigit b, hexDigit x, hexDigit y with
            | Some 0%nat, Some 0%nat, Some h, Some l =>
                match stringBody rest' with
                | Some (body, after) =>
                    Some (String (ascii_of_nat (16 * h + l)) body, after)
                | None => None
                end
            | _, _, _, _ => None
            end
        | String e rest' =>
            match escape e, stringBody rest' with
            | Some ch, Some (body, after) => Some (String ch body, after)
            | _, _ => None
            end
        | EmptyString => None
        end
      else
        match stringBody rest with
        | Some (body, after) => Some (String c body, after)
        | None => None
        end
  end.

Fixpoint takeDigits (s : string) : string * string :=
  match s with
  | String c rest =>
      match digit c with
      | Some _ => let (ds, after) := takeDigits rest in (String c ds, after)
      | None => (EmptyString, s)
      end
  | EmptyString => (EmptyString, EmptyString)
  end.

(** An integer literal: no leading zero, no fraction, no exponent. *)
Definition number (s : string) : option (JsValue * string) :=
  let (negative, s') :=
    match s with
    | String "-" rest => (true, rest)
    | _ => (false, s)
    end in
  let (ds, after) := takeDigits s' in
  let leadingZero :=
    match ds with
    | String "0" (String _ _) => true
    | _ => false
    end in
  let continues :=
    match after with
    | String c _ => Ascii.eqb c "." || Ascii.eqb c "e" || Ascii.eqb c "E"
    | EmptyString => false
    end in
  if (ds =? "")%string || leadingZero || continues then None
  else
    match digits 0 ds with
    | Some n => Some (JNumber (if negative then - n else n), after)
    | None => None
    end.

Definition literal (word : string) (v : JsValue) (s : string)
  : option (JsValue * string) :=
  if prefix word s
  then Some (v, substring (String.length word) (String.length s - String.length word) s)
  else None.

Fixpoint value (fuel : nat) (s : string) {struct fuel} : option (JsValue * string) :=
  match fuel with
  | O => None
  | S fuel' =>
      match skipWs s with
      | EmptyString => None
      | String c rest =>
          if Ascii.eqb c "{" then
            match skipWs rest with
            | String "}" after => Some (JObject [], after)
            | _ => members fuel' rest []
            end
          else if Ascii.eqb c "[" then
            match skipWs rest with
            | String "]" after => Some (JArray [], after)
            | _ => elements fuel' rest []
            end
          else if Ascii.eqb c quote then
            match stringBody rest with
            | Some (str, after) => Some (JString str, after)
            | None => None
            end
          else if Ascii.eqb c "n" then literal "null" JNull (String c rest)
          else if Ascii.eqb c "t" then literal "true" (JBool true) (String c rest)
          else if Ascii.eqb c "f" then literal "false" (JBool false) (String c rest)
          else number (String c rest)
      end
  end
with elements (fuel : nat) (s : string) (acc : list JsValue) {struct fuel}
  : option (JsValue * string) :=
  match fuel with
  | O => None
  | S fuel' =>
      match value fuel' s with
      | Some (v, rest) =>
          match skipWs rest with
          | String "," after => elements fuel' after (acc ++ [v])%list
          | String "]" after => Some (JArray (acc ++ [v])%list, after)
          | _ => None
          end
      | None => None
      end
  end
with members (fuel : nat) (s : string) (acc : list (string * JsValue)) {struct fuel}
  : option (JsValue * string) :=
  match fuel with
  | O => None
  | S fuel' =>
      match skipWs s with
      | String c rest =>
          if Ascii.eqb c quote then
            match stringBody rest with
            | Some (key, rest1) =>
                match skipWs rest1 with
                | String ":" rest2 =>
                    match value fuel' rest2 with
                    | Some (v, rest3) =>
                        match skipWs rest3 with
                        | String "," after => members fuel' after (set_field key v acc)
                        | String "}" after => Some (JObject (set_field key v acc), after)
                        | _ => None
                        end
                    | None => None
                    end
                | _ => None
                end
            | None => None
            end
          else None
      | EmptyString => None
      end
  end.

Definition parseJSON (text : string) : option JsValue :=
  match value (2 * String.length text + 2) text with
  | Some (v, rest) => if (skipWs rest =? "")%string then Some v else None
  | None => None
  end.

(** The host in the zone at [offset] milliseconds east of UTC. *)
Definition runtime (offset : Z) : JsRuntime :=
  {| LocalTZA := offset; Date_new := newDate; JSON_parse := parseJSON |}.

(** A world over a table of appointments and a model that answers every
    prompt with [answer]. *)
Definition world (table : list Prisma.appointment) (answer : Prompt -> Exc string)
  : World :=
  {| model_invoke := answer;
     appointment_findMany := Prisma.findMany table;
     now_toISOString := "2025-11-06T08:00:00.000Z" |}.

End Host.

(** ** Cancelling: [appointmentController.cancelAppointment]

    The handler reads and writes the store, so it runs over a database: the
    [customers] and [appointments] tables, each row with the columns the
    handler names.  The other columns of an appointment stay together in
    [columns]; what an update does to them, and how [res.json] renders a row,
    are taken as given.  A route parameter is a string. *)

(** [parseInt(s)] of a string: leading white space, a sign, [0x] for radix
    16, then the longest run of digits; [None] for [NaN]. *)
Definition digitValue (c : ascii) : option Z :=
  let n := nat_of_ascii c in
  if ((48 <=? n) && (n <=? 57))%nat then Some (Z.of_nat (n - 48))
  else if ((65 <=? n) && (n <=? 90))%nat then Some (Z.of_nat (n - 55))
  else if ((97 <=? n) && (n <=? 122))%nat then Some (Z.of_nat (n - 87))
  else None.

Fixpoint digitRun (radix : Z) (acc : option Z) (s : string) : option Z :=
  match s with
  | String c rest =>
      match digitValue c with
      | Some d =>
          if d <? radix
          then digitRun radix
                        (Some (radix * match acc with Some n => n | None => 0 end + d))
                        rest
          else acc
      | None => acc
      end
  | EmptyString => acc
  end.

Definition parseInt (s : string) : option Z :=
  let unsigned (t : string) : option Z :=
    match t with
    | String "0" (String x rest) =>
        if Ascii.eqb x "x" || Ascii.eqb x "X" then digitRun 16 None rest
        else digitRun 10 None t
    | _ => digitRun 10 None t
    end in
  match Str.trimStart s with
  | String "-" rest => option_map Z.opp (unsigned rest)
  | String "+" rest => unsigned rest
  | t => unsigned t
  end.

Module CustomerAppointments.
Section Store.
Variable Columns : Type.
Variable touch : Columns -> Columns.

Record Customer : Type := {
  customer_id : Z;
  customer_userId : Z
}.

Record Appointment : Type := {
  appointment_id : Z;
  appointment_customerId : Z;
  booking : Prisma.appointment;
  columns : Columns
}.

Variable rowJson : Appointment -> JsValue.

Record Database : Type := {
  customers : list Customer;
  appointments : list Appointment
}.

(** An asynchronous function over the database: the database it leaves, and
    its result or the error it threw. *)
Definition Tx (A : Type) : Type := Database -> Database * Exc A.

Definition ret {A} (a : A) : Tx A := fun db => (db, Ok a).

Definition bind {A B} (m : Tx A) (k : A -> Tx B) : Tx B :=
  fun db =>
    match m db with
    | (db', Ok a) => k a db'
    | (db', Throw e) => (db', Throw e)
    end.

Definition try_catch {A} (m : Tx A) (h : JsError -> Tx A) : Tx A :=
  fun db =>
    match m db with
    | (db', Ok a) => (db', Ok a)
    | (db', Throw e) => h e db'
    end.

Definition lift {A} (r : Exc A) : Tx A := fun db => (db, r).

(** [prisma.customer.findUnique({ where: { userId } })]: the row of that user,
    [None] for [null]; the client refuses a [userId] that is no number. *)
Definition customer_findUnique (userId : JsValue) : Tx (option Customer) :=
  fun db =>
    match userId with
    | JNumber n => (db, Ok (find (fun c => customer_userId c =? n) (customers db)))
    | _ => (db, Throw {| message := "Invalid value for argument userId" |})
    end.

(** [prisma.appointment.findFirst({ where: { id, customerId } })]; the client
    refuses [NaN]. *)
Definition appointment_findFirst (id : option Z) (customerId : Z)
  : Tx (option Appointment) :=
  fun db =>
    match id with
    | Some n =>
        (db, Ok (find (fun a => (appointment_id a =? n)
                                && (appointment_customerId a =? customerId))
                      (appointments db)))
    | None => (db, Throw {| message := "Invalid value for argument id" |})
    end.

Definition withStatus (status : Prisma.AppointmentStatus) (a : Appointment)
  : Appointment :=
  {| appointment_id := appointment_id a;
     appointment_customerId := appointment_customerId a;
     booking := {| Prisma.scheduled_date := Prisma.scheduled_date (booking a);
                   Prisma.status := status |};
     columns := touch (columns a) |}.

(** [prisma.appointment.update({ where: { id }, data: { status } })]: the
    row of that primary key is rewritten and returned; without one the client
    throws. *)
Definition appointment_update (id : option Z) (status : Prisma.AppointmentStatus)
  : Tx Appointment :=
  fun db =>
    match id with
    | Some n =>
        match find (fun a => appointment_id a =? n) (appointments db) with
        | Some a =>
            ({| customers := customers db;
                appointments :=
                  map (fun r => if appointment_id r =? n then withStatus status r else r)
                      (appointments db) |},
             Ok (withStatus status a))
        | None => (db, Throw {| message := "Record to update not found" |})
        end
    | None => (db, Throw {| message := "Invalid value for argument id" |})
    end.

(** A request that passed [authenticateToken]: [req.user], the route's
    [req.params.appointmentId] and [req.body]. *)
Record AuthRequest : Type := {
  user : JsValue;
  appointmentId : string;
  body : JsValue
}.

(** [req.user.userId] *)
Definition userIdOf (req : AuthRequest) : Exc JsValue :=
  match user req with
  | JUndefined | JNull =>
      Throw {| message := "Cannot read properties of undefined (reading 'userId')" |}
  | u => Ok (get "userId" u)
  end.

Definition cancelAppointment (req : AuthRequest) : Tx Response :=
  try_catch
    (bind (lift (userIdOf req)) (fun userId =>
     bind (customer_findUnique userId) (fun customer =>
     match customer with
     | None =>
         ret (respond 404 (JObject [("success", JBool false);
                                    ("error", JString "Customer profile not found")]))
     | Some customer =>
         bind (appointment_findFirst (parseInt (appointmentId req))
                                     (customer_id customer)) (fun appointment =>
         match appointment with
         | None =>
             ret (respond 404 (JObject [("success", JBool false);
                                        ("error", JString "Appointment not found")]))
         | Some _ =>
             bind (appointment_update (parseInt (appointmentId req)) Prisma.cancelled)
                  (fun cancelledAppointment =>
             ret (respond 200
                    (JObject [("success", JBool true);
                              ("message", JString "Appointment cancelled successfully");
                              ("data", rowJson cancelledAppointment)])))
         end)
     end)))
    (fun error =>
       ret (respond 500 (JObject [("success", JBool false);
                                  ("error", JString "Failed to cancel appointment")]))).

(** The bookings the slot lookup sees in a database. *)
Definition bookings (db : Database) : list Prisma.appointment :=
  map booking (appointments db).

(** ** [updateAppointment] *)

Context {rt : JsRuntime}.

(** The nullable [notes] column of a row, and the rendering of a row with
    [include: { vehicle: true, service: true }]. *)
Variable notesOf : Columns -> option string.
Variable setNotes : option string -> Columns -> Columns.
Variable rowJsonIncluding : Appointment -> JsValue.

Definition statusName (s : Prisma.AppointmentStatus) : string :=
  match s with
  | Prisma.scheduled => "scheduled"
  | Prisma.confirmed => "confirmed"
  | Prisma.in_progress => "in_progress"
  | Prisma.completed => "completed"
  | Prisma.cancelled => "cancelled"
  end.

Definition notesValue (notes : option string) : JsValue :=
  match notes with
  | Some text => JString text
  | None => JNull
  end.

(** Update data gives a scalar column as the value itself or as the object
    [{ set: value }]. *)
Definition setOperand (v : JsValue) : JsValue :=
  match v with
  | JObject [(k, operand)] => if (k =? "set")%string then operand else v
  | _ => v
  end.

(** What the client accepts for the three columns: a name of the enum, a
    valid [Date], a string or [null]. *)
Definition statusOfValue (v : JsValue) : option Prisma.AppointmentStatus :=
  match setOperand v with
  | JString s =>
      find (fun st => (statusName st =? s)%string)
           [Prisma.scheduled; Prisma.confirmed; Prisma.in_progress;
            Prisma.completed; Prisma.cancelled]
  | _ => None
  end.

Definition notesOfValue (v : JsValue) : option (option string) :=
  match setOperand v with
  | JString text => Some (Some text)
  | JNull => Some None
  | _ => None
  end.

Definition withData (status : Prisma.AppointmentStatus) (scheduledDate : Z)
    (notes : option string) (a : Appointment) : Appointment :=
  {| appointment_id := appointment_id a;
     appointment_customerId := appointment_customerId a;
     booking := {| Prisma.scheduled_date := scheduledDate;
                   Prisma.status := status |};
     columns := touch (setNotes notes (columns a)) |}.

(** [prisma.appointment.update({ where: { id }, data: { status,
    scheduledDate, notes } })]: the client validates the data and throws on
    a value it does not accept; the row of that primary key is rewritten and
    returned. *)
Definition appointment_updateData (id : option Z) (status : JsValue)
    (scheduledDate : JsDate) (notes : JsValue) : Tx Appointment :=
  fun db =>
    match id, statusOfValue status, scheduledDate, notesOfValue notes with
    | Some n, Some st, TimeValue t, Some nt =>
        match find (fun a => appointment_id a =? n) (appointments db) with
        | Some a =>
            ({| customers := customers db;
                appointments :=
                  map (fun r => if appointment_id r =? n then withData st t nt r else r)
                      (appointments db) |},
             Ok (withData st t nt a))
        | None => (db, Throw {| message := "Record to update not found" |})
        end
    | _, _, _, _ => (db, Throw {| message := "Invalid value for argument of update" |})
    end.

Definition updateAppointment (req : AuthRequest) : Tx Response :=
  try_catch
    (bind (lift (userIdOf req)) (fun userId =>
     bind (lift (destructure "status" (body req))) (fun status =>
     bind (lift (destructure "scheduledDate" (body req))) (fun scheduledDate =>
     bind (lift (destructure "notes" (body req))) (fun notes =>
     bind (customer_findUnique userId) (fun customer =>
     match customer with
     | None =>
         ret (respond 404 (JObject [("success", JBool false);
                                    ("error", JString "Customer profile not found")]))
     | Some customer =>
         bind (appointment_findFirst (parseInt (appointmentId req))
                                     (customer_id customer)) (fun appointment =>
         match appointment with
         | None =>
             ret (respond 404 (JObject [("success", JBool false);
                                        ("error", JString "Appointment not found")]))
         | Some appointment =>
             bind (appointment_updateData
                     (parseInt (appointmentId req))
                     (js_or status
                            (JString (statusName (Prisma.status (booking appointment)))))
                     (if truthy scheduledDate then Date_new scheduledDate
                      else TimeValue (Prisma.scheduled_date (booking appointment)))
                     (match notes with
                      | JUndefined => notesValue (notesOf (columns appointment))
                      | _ => notes
                      end))
                  (fun updatedAppointment =>
             ret (respond 200
                    (JObject [("success", JBool true);
                              ("message", JString "Appointment updated successfully");
                              ("data", rowJsonIncluding updatedAppointment)])))
         end)
     end))))))
    (fun error =>
       ret (respond 500 (JObject [("success", JBool false);
                                  ("error", JString "Failed to update appointment")]))).

End Store.
End CustomerAppointments.

(** * Vocabulary of the statements

    What the statements below speak of: the payloads the handlers answer
    with, the query they send, the slots a day has and those the bookings
    leave open; then the tables, worlds and dates of the examples. *)

Section Vocabulary.
Context {rt : JsRuntime}.

(** [{success: false, error: reason}] *)
Definition failure (reason : string) : JsValue :=
  JObject [("success", JBool false); ("error", JString reason)].

(** The payload of the Sunday branch. *)
Definition closedOnSunday : JsValue :=
  JObject [("success", JBool true);
           ("data", JObject [("availableSlots", JArray []);
                             ("message", JString "Service station is closed on Sundays")])].

(** The payload a handler answered with. *)
Definition payloadOf (r : list Event * Exc Response) : JsValue :=
  match snd r with
  | Ok res => json res
  | Throw _ => JUndefined
  end.

(** The query the booking API and the chat service send for a date. *)
Definition dayQuery (date : JsValue) : Prisma.Where :=
  {| Prisma.gte := setHours (Date_new date) 0 0 0 0;
     Prisma.lte := setHours (Date_new date) 23 59 59 999;
     Prisma.status_filter :=
       Prisma.status_in [Prisma.scheduled; Prisma.confirmed; Prisma.in_progress] |}.

(** The query the earlier chat service sends for a date. *)
Definition legacyQuery (date : JsValue) : Prisma.Where :=
  {| Prisma.gte := setHours (Date_new date) 0 0 0 0;
     Prisma.lte := setHours (Date_new date) 23 59 59 999;
     Prisma.status_filter := Prisma.status_not Prisma.cancelled |}.

(** [(startHour, endHour)] of a day that is not a Sunday. *)
Definition hoursOf (dayOfWeek : option Z) : Z * Z :=
  if strictEq dayOfWeek 6 then (8, 19) else (9, 18).

(** [bookedHours] of the rows a query returned. *)
Definition bookedHoursOf (rows : list Prisma.Row) : list Z :=
  map (fun apt => getHours (Prisma.scheduledDate apt)) rows.

(** [availableSlots] of the booking API for the rows a query returned. *)
Definition openSlots (dayOfWeek : option Z) (rows : list Prisma.Row) : list TimeSlot :=
  filter (fun slot => negb (includes (bookedHoursOf rows) (hour slot)))
         (generateSlots AppointmentController.formatHourDisplay
                        (fst (hoursOf dayOfWeek)) (snd (hoursOf dayOfWeek))).

(** The payload of the booking API on a day with business hours. *)
Definition slotsPayload (date : JsValue) (rows : list Prisma.Row) : JsValue :=
  let dayOfWeek := getDay (Date_new date) in
  let (startHour, endHour) := hoursOf dayOfWeek in
  JObject
    [("success", JBool true);
     ("data", JObject
        [("date", date);
         ("dayOfWeek", AppointmentController.getDayName dayOfWeek);
         ("businessHours",
          JString (AppointmentController.formatHourDisplay startHour ++ " - "
                   ++ AppointmentController.formatHourDisplay endHour));
         ("availableSlots", JArray (map slotJson (openSlots dayOfWeek rows)));
         ("totalSlots",
          JNumber (Z.of_nat (List.length
             (generateSlots AppointmentController.formatHourDisplay startHour endHour))));
         ("bookedSlots", JNumber (Z.of_nat (List.length rows)))])].

(** The same payload, every field given. *)
Definition schedulePayload (date dayName : JsValue) (businessHours : string)
    (slots : list TimeSlot) (totalSlots bookedSlots : Z) : JsValue :=
  JObject [("success", JBool true);
           ("data", JObject [("date", date);
                             ("dayOfWeek", dayName);
                             ("businessHours", JString businessHours);
                             ("availableSlots", JArray (map slotJson slots));
                             ("totalSlots", JNumber totalSlots);
                             ("bookedSlots", JNumber bookedSlots)])].

(** The nine slots of a weekday and the eleven of a Saturday. *)
Definition weekdaySchedule : list TimeSlot :=
  [ {| hour := 9;  time := "09:00"; display := "9:00 AM" |};
    {| hour := 10; time := "10:00"; display := "10:00 AM" |};
    {| hour := 11; time := "11:00"; display := "11:00 AM" |};
    {| hour := 12; time := "12:00"; display := "12:00 PM" |};
    {| hour := 13; time := "13:00"; display := "1:00 PM" |};
    {| hour := 14; time := "14:00"; display := "2:00 PM" |};
    {| hour := 15; time := "15:00"; display := "3:00 PM" |};
    {| hour := 16; time := "16:00"; display := "4:00 PM" |};
    {| hour := 17; time := "17:00"; display := "5:00 PM" |} ].

Definition saturdaySchedule : list TimeSlot :=
  {| hour := 8; time := "08:00"; display := "8:00 AM" |}
  :: (weekdaySchedule ++ [ {| hour := 18; time := "18:00"; display := "6:00 PM" |} ])%list.



(** The distinct hours of [rows] that lie in [startHour, endHour). *)
Definition occupiedHours (startHour endHour : Z) (rows : list Prisma.Row) : list Z :=
  nodup Z.eq_dec
        (filter (fun h => (startHour <=? h) && (h <? endHour)) (bookedHoursOf rows)).

(** A string made of white space only. *)
Fixpoint isBlank (s : string) : bool :=
  match s with
  | EmptyString => true
  | String c rest => Str.isWhiteSpace c && isBlank rest
  end.

(** The prompt [extractDateAndIntent] invokes the model on. *)
Definition extractionCall (userMessage : JsValue) (w : World) : Prompt :=
  extractionPrompt userMessage (Str.beforeSep "T" (now_toISOString w)).

(** No JSON envelope can be extracted from [content]: the regular expression
    finds no braces, or [JSON.parse] rejects what it found. *)
Definition noEnvelope (content : string) : Prop :=
  match Str.matchBraces (Str.trim content) with
  | Some jsonMatch => JSON_parse jsonMatch = None
  | None => True
  end.

(** [t] lies on the local calendar day of [t0]. *)
Definition onDayOf (t0 t : Z) : Prop := Day (LocalTime t) = Day (LocalTime t0).

(** The statuses the day's query selects. *)
Definition blocks (s : Prisma.AppointmentStatus) : bool :=
  existsb (Prisma.status_eqb s) [Prisma.scheduled; Prisma.confirmed; Prisma.in_progress].

(** The rows the day's query returns from a table, for a date of time value
    [t0]. *)
Definition rowsOn (t0 : Z) (table : list Prisma.appointment) : list Prisma.Row :=
  map (fun a => {| Prisma.scheduledDate := Prisma.scheduled_date a |})
      (filter (fun a =>
                 (UTC (Day (LocalTime t0) * msPerDay) <=? Prisma.scheduled_date a)
                 && (Prisma.scheduled_date a
                     <=? UTC (Day (LocalTime t0) * msPerDay + 23 * msPerHour
                              + 59 * msPerMinute + 59 * 1000 + 999))
                 && blocks (Prisma.status a))
              table).

(** The start of the local hour of [t], and a booking moved there. *)
Definition onTheHour (t : Z) : Z := t - LocalTime t mod msPerHour.

Definition rounded (a : Prisma.appointment) : Prisma.appointment :=
  {| Prisma.scheduled_date := onTheHour (Prisma.scheduled_date a);
     Prisma.status := Prisma.status a |}.

End Vocabulary.

(** ** Examples: tables, worlds and answers of the model

    Time values are UTC: 1762646400000 is Sunday 9 November 2025, 00:00. *)

(** Sunday 9 November 2025: a confirmed booking at 10:00. *)
Definition sundayTable : list Prisma.appointment :=
  [ {| Prisma.scheduled_date := 1762682400000; Prisma.status := Prisma.confirmed |} ].

(** Monday 10 November 2025: a confirmed booking at 09:00 and a completed one
    at 14:00. *)
Definition mondayTable : list Prisma.appointment :=
  [ {| Prisma.scheduled_date := 1762765200000; Prisma.status := Prisma.confirmed |};
    {| Prisma.scheduled_date := 1762783200000; Prisma.status := Prisma.completed |} ].

(** Monday 10 November 2025: bookings at 10:00 and 10:30, one at 20:00 after
    closing, and a completed one at 14:00; then the rows the day's query
    selects among them. *)
Definition crowdedMonday : list Prisma.appointment :=
  [ {| Prisma.scheduled_date := 1762768800000; Prisma.status := Prisma.confirmed |};
    {| Prisma.scheduled_date := 1762770600000; Prisma.status := Prisma.scheduled |};
    {| Prisma.scheduled_date := 1762804800000; Prisma.status := Prisma.in_progress |};
    {| Prisma.scheduled_date := 1762783200000; Prisma.status := Prisma.completed |} ].

Definition crowdedMondayRows : list Prisma.Row :=
  [ {| Prisma.scheduledDate := 1762768800000 |};
    {| Prisma.scheduledDate := 1762770600000 |};
    {| Prisma.scheduledDate := 1762804800000 |} ].

(** Wednesday 12 November 2025: a confirmed booking at 09:00 and a completed
    one at 14:00. *)
Definition wednesdayTable : list Prisma.appointment :=
  [ {| Prisma.scheduled_date := 1762938000000; Prisma.status := Prisma.confirmed |};
    {| Prisma.scheduled_date := 1762956000000; Prisma.status := Prisma.completed |} ].

(** Monday 10 November 2025: one scheduled booking at 09:30. *)
Definition halfPastNine : list Prisma.appointment :=
  [ {| Prisma.scheduled_date := 1762767000000; Prisma.status := Prisma.scheduled |} ].

(** A store whose client does not check the bounds it is given and finds no
    row between invalid ones. *)
Definition lenientWorld (answer : Prompt -> Exc string) : World :=
  {| model_invoke := answer;
     appointment_findMany := fun _ => Ok [];
     now_toISOString := "2025-11-06T08:00:00.000Z" |}.

(** A model that answers the extraction prompt with [content] and every other
    prompt with a fixed reply. *)
Definition answering (content : string) (p : Prompt) : Exc string :=
  match p with
  | extractionPrompt _ _ => Ok content
  | _ => Ok "How can I help you?"
  end.

(** A JSON string literal, and the answer of a model that names a date which
    is no calendar date:
    [{ intent: appointment_query, date: soon, userFriendlyDate: null }]. *)
Definition quoted (s : string) : string :=
  String Host.quote (s ++ String Host.quote "").

Definition answerWithBadDate : string :=
  "{" ++ quoted "intent" ++ ":" ++ quoted "appointment_query" ++ ","
      ++ quoted "date" ++ ":" ++ quoted "soon" ++ ","
      ++ quoted "userFriendlyDate" ++ ":null}".

(** Answers of the model: a greeting that names a date all the same, and
    appointment queries for Monday 10 and Sunday 9 November 2025. *)
Definition answerGreeting : string :=
  "{" ++ quoted "intent" ++ ":" ++ quoted "greeting" ++ ","
      ++ quoted "date" ++ ":" ++ quoted "2025-12-15" ++ "}".

Definition answerFor (date : string) : string :=
  "{" ++ quoted "intent" ++ ":" ++ quoted "appointment_query" ++ ","
      ++ quoted "date" ++ ":" ++ quoted date ++ ","
      ++ quoted "userFriendlyDate" ++ ":null}".

(** A world whose store throws on every query. *)
Definition brokenStoreWorld (answer : Prompt -> Exc string) (e : JsError) : World :=
  {| model_invoke := answer;
     appointment_findMany := fun _ => Throw e;
     now_toISOString := "2025-11-06T08:00:00.000Z" |}.

(** The character [c] occurs in [s]. *)
Fixpoint occurs (c : ascii) (s : string) : bool :=
  match s with
  | EmptyString => false
  | String c' rest => Ascii.eqb c' c || occurs c rest
  end.

(** An answer of the model in a fence of back quotes. *)
Definition fencedAnswer : string :=
  "```json " ++ answerGreeting ++ " ```".

(** A database of two customers, users 11 and 12, with one appointment each
    on Monday 10 November 2025, at 09:00 and at 10:00; the other column of
    its rows is their notes, and a row is rendered by its id and status. *)
Definition ownAppointment : CustomerAppointments.Appointment (option string) :=
  {| CustomerAppointments.appointment_id := 5;
     CustomerAppointments.appointment_customerId := 1;
     CustomerAppointments.booking :=
       {| Prisma.scheduled_date := 1762765200000;
          Prisma.status := Prisma.confirmed |};
     CustomerAppointments.columns := Some "Oil change" |}.

Definition otherAppointment : CustomerAppointments.Appointment (option string) :=
  {| CustomerAppointments.appointment_id := 6;
     CustomerAppointments.appointment_customerId := 2;
     CustomerAppointments.booking :=
       {| Prisma.scheduled_date := 1762768800000;
          Prisma.status := Prisma.scheduled |};
     CustomerAppointments.columns := None |}.

Definition firstCustomer : CustomerAppointments.Customer :=
  {| CustomerAppointments.customer_id := 1;
     CustomerAppointments.customer_userId := 11 |}.

Definition exampleDb : CustomerAppointments.Database (option string) :=
  {| CustomerAppointments.customers :=
       [ firstCustomer;
         {| CustomerAppointments.customer_id := 2;
            CustomerAppointments.customer_userId := 12 |} ];
     CustomerAppointments.appointments := [ ownAppointment; otherAppointment ] |}.

Definition cancelRequest (userId : Z) (id : string) : CustomerAppointments.AuthRequest :=
  {| CustomerAppointments.user := JObject [("userId", JNumber userId)];
     CustomerAppointments.appointmentId := id;
     CustomerAppointments.body := JObject [] |}.

Definition exampleRowJson (a : CustomerAppointments.Appointment (option string)) : JsValue :=
  JObject [("id", JNumber (CustomerAppointments.appointment_id (option string) a));
           ("status",
            JString (CustomerAppointments.statusName
                       (Prisma.status (CustomerAppointments.booking (option string) a))))].

(** A request of user [userId] to update appointment [id] with [fields]. *)
Definition updateRequest (userId : Z) (id : string) (fields : list (string * JsValue))
  : CustomerAppointments.AuthRequest :=
  {| CustomerAppointments.user := JObject [("userId", JNumber userId)];
     CustomerAppointments.appointmentId := id;
     CustomerAppointments.body := JObject fields |}.

(** The columns of the example rows are their notes. *)
Definition keepNotes (c : option string) : option string := c.
Definition writeNotes (notes c : option string) : option string := notes.

(** * Properties *)

(** ** Running a handler *)

Lemma bind_ok {A B} (m : IO A) (k : A -> IO B) (w : World) tr a :
  m w = (tr, Ok a) ->
  bind m k w = ((tr ++ fst (k a w))%list, snd (k a w)).
Proof.
  intros Hm. unfold bind. rewrite Hm. destruct (k a w); reflexivity.
Qed.

Lemma try_catch_rethrow {A} (m : IO A) (w : World) :
  try_catch m (fun error => throw error) w = m w.
Proof.
  unfold try_catch, throw. destruct (m w) as [tr [a | e]]; [reflexivity |].
  now rewrite app_nil_r.
Qed.

(** The handler of the booking API, case by case: the guard, the Sunday
    branch, and the day with business hours, where the answer follows what
    the store returns. *)
Lemma api_run {rt : JsRuntime} (req : Request) (w : World) (date : JsValue) :
  destructure "date" (query req) = Ok date ->
  AppointmentController.getAvailableTimeSlots req w =
    if negb (truthy date) then ([], Ok (respond 400 (failure "Date is required")))
    else if strictEq (getDay (Date_new date)) 0
         then ([], Ok (respond 200 closedOnSunday))
         else match appointment_findMany w (dayQuery date) with
              | Ok rows => ([FindManyCall (dayQuery date)],
                            Ok (respond 200 (slotsPayload date rows)))
              | Throw _ =>
                  ([FindManyCall (dayQuery date)],
                   Ok (respond 500 (failure "Failed to fetch available time slots")))
              end.
Proof.
  intros Hd.
  unfold AppointmentController.getAvailableTimeSlots, try_catch, bind, lift.
  rewrite Hd.
  destruct (truthy date); cbn [negb]; [| reflexivity].
  destruct (strictEq (getDay (Date_new date)) 0) eqn:Hsun; [reflexivity |].
  unfold slotsPayload, openSlots, hoursOf.
  unfold dayQuery, findMany, ret, AppointmentController.blockingStatuses.
  destruct (strictEq (getDay (Date_new date)) 6);
    cbn [fst snd];
    destruct (appointment_findMany w _) as [rows | e];
    cbn [app]; rewrite ?length_map; reflexivity.
Qed.

(** The chat service's slot lookup, case by case. *)
Lemma chat_run {rt : JsRuntime} (date : JsValue) (w : World) :
  ChatbotService.getAvailableTimeSlots date w =
    if strictEq (getDay (Date_new date)) 0 then ([], Ok [])
    else match appointment_findMany w (dayQuery date) with
         | Ok rows => ([FindManyCall (dayQuery date)],
                       Ok (map display (openSlots (getDay (Date_new date)) rows)))
         | Throw e => ([FindManyCall (dayQuery date)], Throw e)
         end.
Proof.
  unfold ChatbotService.getAvailableTimeSlots.
  rewrite try_catch_rethrow.
  destruct (strictEq (getDay (Date_new date)) 0) eqn:Hsun; [reflexivity |].
  unfold openSlots, hoursOf.
  unfold dayQuery, bind, findMany, ret, ChatbotService.blockingStatuses.
  destruct (strictEq (getDay (Date_new date)) 6);
    cbn [fst snd];
    destruct (appointment_findMany w _) as [rows | e];
    reflexivity.
Qed.

(** The earlier chat service's slot lookup: one query and one filter of the
    fixed list, whatever the day of the week. *)
Lemma legacy_run {rt : JsRuntime} (date : JsValue) (w : World) :
  LegacyChatbotService.getAvailableTimeSlots date w
  = ([FindManyCall (legacyQuery date)],
     match appointment_findMany w (legacyQuery date) with
     | Ok rows =>
         Ok (filter (fun slot =>
                       negb (LegacyChatbotService.includesString
                               (map LegacyChatbotService.bookedSlot rows) slot))
                    LegacyChatbotService.businessHours)
     | Throw e => Throw e
     end).
Proof.
  unfold LegacyChatbotService.getAvailableTimeSlots.
  rewrite try_catch_rethrow. unfold bind, findMany, ret.
  fold (legacyQuery date).
  destruct (appointment_findMany w (legacyQuery date)); reflexivity.
Qed.

(** With no booking returned it offers 09:00 to 17:00 on every date, Saturday
    and Sunday included. *)
Lemma legacy_has_no_day_rule {rt : JsRuntime} (date : JsValue) (w : World) :
  appointment_findMany w (legacyQuery date) = Ok [] ->
  snd (LegacyChatbotService.getAvailableTimeSlots date w)
  = Ok LegacyChatbotService.businessHours.
Proof.
  intros Hstore. now rewrite legacy_run, Hstore.
Qed.

(** ** Requests without their required input *)

(** C9: a slot request whose query has no [date], and a chat request whose
    body has no [message] or an empty one, are answered 400 with the bodies
    [{success: false, error: "Date is required"}] and
    [{success: false, error: "Message is required"}]; the trace is empty, so
    neither the store nor the model was called. *)
Theorem missing_input_rejected_400 {rt : JsRuntime} (w : World)
    (slotReq chatReq : Request) (params fields : list (string * JsValue)) :
  query slotReq = JObject params ->
  assoc "date" params = JUndefined ->
  body chatReq = JObject fields ->
  assoc "message" fields = JUndefined \/ assoc "message" fields = JString "" ->
  AppointmentController.getAvailableTimeSlots slotReq w
    = ([], Ok (respond 400 (failure "Date is required")))
  /\ ChatbotController.handleChatMessage chatReq w
    = ([], Ok (respond 400 (failure "Message is required"))).
Proof.
  intros Hq Hdate Hb Hmsg. split.
  - rewrite (api_run slotReq w JUndefined); [reflexivity |].
    rewrite Hq. cbn. now rewrite Hdate.
  - unfold ChatbotController.handleChatMessage, try_catch, bind, lift.
    rewrite Hb. cbn [destructure get].
    destruct Hmsg as [-> | ->]; reflexivity.
Qed.

Lemma missing_input_rejected_400_witness :
  let w := Host.world [] (fun _ => Ok "Hello!") in
  let slotReq := {| query := JObject []; body := JUndefined |} in
  let chatReq := {| query := JObject []; body := JObject [("message", JString "")] |} in
  @AppointmentController.getAvailableTimeSlots (Host.runtime 0) slotReq w
    = ([], Ok (respond 400 (failure "Date is required")))
  /\ @ChatbotController.handleChatMessage (Host.runtime 0) chatReq w
    = ([], Ok (respond 400 (failure "Message is required"))).
Proof.
  intros w slotReq chatReq.
  apply (@missing_input_rejected_400 (Host.runtime 0) w slotReq chatReq
           [] [("message", JString "")]).
  - reflexivity.
  - reflexivity.
  - reflexivity.
  - right. reflexivity.
Defined.

Lemma trim_blank (s : string) : isBlank s = true -> Str.trim s = "".
Proof.
  unfold Str.trim. induction s as [| c rest IH]; cbn; [reflexivity |].
  intros H. apply andb_prop in H as [Hc Hrest].
  rewrite Hc. now apply IH.
Qed.

(** C10: a chat message that is a non-empty string of white space is answered
    400 [{success: false, error: "Message is required"}], as an empty or
    missing one is, and the trace is empty: no call to the model or the
    store. *)
Theorem blank_message_rejected_400 {rt : JsRuntime} (w : World) (req : Request)
    (fields : list (string * JsValue)) (s : string) :
  body req = JObject fields ->
  assoc "message" fields = JString s ->
  s <> "" ->
  isBlank s = true ->
  ChatbotController.handleChatMessage req w
    = ([], Ok (respond 400 (failure "Message is required"))).
Proof.
  intros Hb Hmsg Hne Hblank.
  unfold ChatbotController.handleChatMessage, try_catch, bind, lift.
  rewrite Hb. cbn [destructure get]. rewrite Hmsg.
  destruct s as [| c rest]; [congruence |].
  cbn [truthy negb String.eqb js_trim].
  now rewrite (trim_blank _ Hblank).
Qed.

Lemma blank_message_rejected_400_witness :
  let w := Host.world [] (fun _ => Ok "Hello!") in
  let req := {| query := JObject []; body := JObject [("message", JString "   ")] |} in
  @ChatbotController.handleChatMessage (Host.runtime 0) req w
    = ([], Ok (respond 400 (failure "Message is required"))).
Proof.
  intros w req.
  apply (@blank_message_rejected_400 (Host.runtime 0) w req
           [("message", JString "   ")] "   ").
  - reflexivity.
  - reflexivity.
  - discriminate.
  - reflexivity.
Defined.

(** ** A day without bookings *)








(** ** Sunday *)

(** C6, as the code has it: on a date whose [getDay()] is 0 the booking API
    answers 200 with [{success: true, data: {availableSlots: [], message:
    "Service station is closed on Sundays"}}] and the chat service's slot
    lookup returns the empty list, whatever the store holds and without
    querying it; the payload has no [isClosed], [totalSlots] or [bookedSlots]
    field. *)
Theorem sunday_is_closed {rt : JsRuntime} (w : World) (req : Request) (date : JsValue) :
  destructure "date" (query req) = Ok date ->
  truthy date = true ->
  getDay (Date_new date) = Some 0 ->
  AppointmentController.getAvailableTimeSlots req w
    = ([], Ok (respond 200 closedOnSunday))
  /\ ChatbotService.getAvailableTimeSlots date w = ([], Ok [])
  /\ get "isClosed" (get "data" closedOnSunday) = JUndefined
  /\ get "totalSlots" (get "data" closedOnSunday) = JUndefined
  /\ get "bookedSlots" (get "data" closedOnSunday) = JUndefined.
Proof.
  intros Hreq Htruthy Hday. repeat split.
  - now rewrite (api_run req w date Hreq), Htruthy, Hday.
  - now rewrite chat_run, Hday.
Qed.

Lemma sunday_is_closed_witness :
  let rt := Host.runtime 0 in
  let w := Host.world sundayTable (fun _ => Ok "Hello!") in
  let date := JString "2025-11-09" in
  let req := {| query := JObject [("date", date)]; body := JUndefined |} in
  AppointmentController.getAvailableTimeSlots req w
    = ([], Ok (respond 200 closedOnSunday))
  /\ ChatbotService.getAvailableTimeSlots date w = ([], Ok []).
Proof.
  intros rt w date req.
  destruct (@sunday_is_closed rt w req date) as (Hapi & Hchat & _).
  - reflexivity.
  - reflexivity.
  - reflexivity.
  - split; [exact Hapi | exact Hchat].
Defined.

(** C6 as stated fails: on Sunday 9 November 2025 the earlier chat service,
    which has no day-of-week rule, offers its nine slots, and the payload of
    the booking API has no [isClosed] flag and no slot counts. *)
Lemma sunday_closed_outcome_fails :
  let rt := Host.runtime 0 in
  let w := Host.world [] (fun _ => Ok "Hello!") in
  let date := JString "2025-11-09" in
  let req := {| query := JObject [("date", date)]; body := JUndefined |} in
  getDay (Date_new date) = Some 0
  /\ snd (LegacyChatbotService.getAvailableTimeSlots date w)
     = Ok ["09:00"; "10:00"; "11:00"; "12:00"; "13:00"; "14:00"; "15:00"; "16:00"; "17:00"]
  /\ snd (LegacyChatbotService.getAvailableTimeSlots date w) <> Ok []
  /\ get "isClosed" (get "data" (payloadOf (AppointmentController.getAvailableTimeSlots req w)))
     <> JBool true
  /\ get "totalSlots" (get "data" (payloadOf (AppointmentController.getAvailableTimeSlots req w)))
     <> JNumber 0.
Proof.
  cbv zeta. repeat split; try reflexivity; vm_compute; discriminate.
Qed.

(** ** The two consumers *)

(** C1, for the handler of the booking API and the chat service's slot lookup:
    on every date that passes the API's guard and every state of the store
    they make the same calls, and the labels the chat service returns are the
    [display] fields of the API's [availableSlots], Sunday included; when the
    query throws, the chat service rethrows and the API answers 500. *)
Theorem api_and_chat_same_open_slots {rt : JsRuntime} (w : World) (req : Request)
    (date : JsValue) :
  destructure "date" (query req) = Ok date ->
  truthy date = true ->
  fst (AppointmentController.getAvailableTimeSlots req w)
    = fst (ChatbotService.getAvailableTimeSlots date w)
  /\ match snd (ChatbotService.getAvailableTimeSlots date w) with
     | Ok labels =>
         exists (slots : list TimeSlot) (res : Response),
           labels = map display slots
           /\ snd (AppointmentController.getAvailableTimeSlots req w) = Ok res
           /\ statusCode res = 200
           /\ get "availableSlots" (get "data" (json res)) = JArray (map slotJson slots)
     | Throw _ =>
         snd (AppointmentController.getAvailableTimeSlots req w)
           = Ok (respond 500 (failure "Failed to fetch available time slots"))
     end.
Proof.
  intros Hreq Htruthy.
  rewrite (api_run req w date Hreq), chat_run, Htruthy. cbn [negb].
  destruct (strictEq (getDay (Date_new date)) 0).
  - split; [reflexivity |]. exists [], (respond 200 closedOnSunday).
    repeat split.
  - destruct (appointment_findMany w (dayQuery date)) as [rows | e].
    + split; [reflexivity |].
      exists (openSlots (getDay (Date_new date)) rows),
             (respond 200 (slotsPayload date rows)).
      repeat split.
      unfold slotsPayload. destruct (hoursOf (getDay (Date_new date))). reflexivity.
    + split; reflexivity.
Qed.

Lemma api_and_chat_same_open_slots_witness :
  let rt := Host.runtime 0 in
  let w := Host.world mondayTable (fun _ => Ok "Hello!") in
  let date := JString "2025-11-10" in
  let req := {| query := JObject [("date", date)]; body := JUndefined |} in
  fst (AppointmentController.getAvailableTimeSlots req w)
    = fst (ChatbotService.getAvailableTimeSlots date w)
  /\ snd (ChatbotService.getAvailableTimeSlots date w)
     = Ok ["10:00 AM"; "11:00 AM"; "12:00 PM"; "1:00 PM"; "2:00 PM"; "3:00 PM";
           "4:00 PM"; "5:00 PM"].
Proof.
  intros rt w date req. split; [| reflexivity].
  refine (proj1 (@api_and_chat_same_open_slots rt w req date _ _)).
  - reflexivity.
  - reflexivity.
Defined.

(** C1 as stated fails for the earlier chat service: on Saturday 15 November
    2025, with no bookings, the booking API offers the eleven slots from 08:00
    and the earlier chat service its nine from 09:00. *)
Lemma legacy_chat_differs_from_api :
  let rt := Host.runtime 0 in
  let w := Host.world [] (fun _ => Ok "Hello!") in
  let date := JString "2025-11-15" in
  let req := {| query := JObject [("date", date)]; body := JUndefined |} in
  exists (apiSlots : list TimeSlot) (legacySlots : list string),
    get "availableSlots" (get "data" (payloadOf (AppointmentController.getAvailableTimeSlots req w)))
      = JArray (map slotJson apiSlots)
    /\ snd (LegacyChatbotService.getAvailableTimeSlots date w) = Ok legacySlots
    /\ In "08:00" (map time apiSlots)
    /\ ~ In "08:00" legacySlots
    /\ List.length apiSlots = 11%nat
    /\ List.length legacySlots = 9%nat.
Proof.
  cbv zeta.
  exists saturdaySchedule, LegacyChatbotService.businessHours.
  repeat split; try reflexivity.
  - left. reflexivity.
  - cbn. intros H. repeat (destruct H as [H | H]; [discriminate |]). exact H.
Qed.

(** ** A date that does not parse *)

(** C3, as the code has it: the handler does not validate the date.  For a
    date string that does not parse, [getDay()] is [NaN], neither 0 nor 6, so
    the handler takes the weekday hours and queries the store between invalid
    bounds; it answers 500 "Failed to fetch available time slots" when the
    query throws and 200 with the weekday schedule when it returns, and never
    400. *)
Theorem unparseable_date_is_not_rejected {rt : JsRuntime} (w : World) (req : Request)
    (date : JsValue) :
  destructure "date" (query req) = Ok date ->
  truthy date = true ->
  Date_new date = InvalidDate ->
  AppointmentController.getAvailableTimeSlots req w
    = ([FindManyCall (dayQuery date)],
       match appointment_findMany w (dayQuery date) with
       | Ok rows =>
           Ok (respond 200
                 (schedulePayload date JUndefined "9:00 AM - 6:00 PM"
                                  (openSlots None rows) 9 (Z.of_nat (List.length rows))))
       | Throw _ => Ok (respond 500 (failure "Failed to fetch available time slots"))
       end)
  /\ exists res : Response,
       snd (AppointmentController.getAvailableTimeSlots req w) = Ok res
       /\ statusCode res <> 400.
Proof.
  intros Hreq Htruthy Hinvalid.
  rewrite (api_run req w date Hreq), Htruthy. cbn [negb].
  unfold slotsPayload. rewrite Hinvalid. cbn [getDay strictEq hoursOf].
  destruct (appointment_findMany w (dayQuery date)) as [rows | e];
    (split; [reflexivity | eexists; split; [reflexivity | cbn; lia]]).
Qed.

Lemma unparseable_date_is_not_rejected_witness :
  let rt := Host.runtime 0 in
  let w := Host.world mondayTable (fun _ => Ok "Hello!") in
  let date := JString "soon" in
  let req := {| query := JObject [("date", date)]; body := JUndefined |} in
  Date_new date = InvalidDate
  /\ AppointmentController.getAvailableTimeSlots req w
     = ([FindManyCall {| Prisma.gte := InvalidDate;
                         Prisma.lte := InvalidDate;
                         Prisma.status_filter :=
                           Prisma.status_in [Prisma.scheduled; Prisma.confirmed;
                                             Prisma.in_progress] |}],
        Ok (respond 500 (failure "Failed to fetch available time slots"))).
Proof.
  intros rt w date req. split; [reflexivity |].
  refine (proj1 (@unparseable_date_is_not_rejected rt w req date _ _ _)).
  - reflexivity.
  - reflexivity.
  - reflexivity.
Defined.

(** C3 as stated fails: for the date "soon" the handler answers 500 over the
    Prisma store and, over a store that accepts the invalid bounds, 200 with
    the nine weekday slots; in neither case 400. *)
Lemma unparseable_date_gets_no_400 :
  let rt := Host.runtime 0 in
  let date := JString "soon" in
  let req := {| query := JObject [("date", date)]; body := JUndefined |} in
  Date_new date = InvalidDate
  /\ snd (AppointmentController.getAvailableTimeSlots req
            (Host.world [] (fun _ => Ok "Hello!")))
     = Ok (respond 500 (failure "Failed to fetch available time slots"))
  /\ snd (AppointmentController.getAvailableTimeSlots req
            (lenientWorld (fun _ => Ok "Hello!")))
     = Ok (respond 200 (schedulePayload date JUndefined "9:00 AM - 6:00 PM"
                                        weekdaySchedule 9 0)).
Proof.
  cbv zeta. repeat split.
Qed.

(** ** The model's answer to the extraction prompt *)

Lemma extract_run {rt : JsRuntime} (userMessage : JsValue) (w : World) (content : string) :
  model_invoke w (extractionCall userMessage w) = Ok content ->
  ChatbotService.extractDateAndIntent userMessage w
    = ([ModelCall (extractionCall userMessage w)],
       Ok match Str.matchBraces (Str.trim content) with
          | Some jsonMatch =>
              match JSON_parse jsonMatch with
              | Some parsed => parsed
              | None => ChatbotService.fallbackIntent
              end
          | None => ChatbotService.fallbackIntent
          end).
Proof.
  intros Hmodel.
  unfold ChatbotService.extractDateAndIntent, bind, currentDate, invoke, try_catch.
  fold (extractionCall userMessage w). rewrite Hmodel.
  destruct (Str.matchBraces (Str.trim content)) as [jsonMatch |]; [| reflexivity].
  destruct (JSON_parse jsonMatch); reflexivity.
Qed.

Lemma no_envelope_run {rt : JsRuntime} (w : World)
    (userMessage : JsValue) (content : string) :
  model_invoke w (extractionCall userMessage w) = Ok content ->
  noEnvelope content ->
  ChatbotService.extractDateAndIntent userMessage w
    = ([ModelCall (extractionCall userMessage w)], Ok ChatbotService.fallbackIntent)
  /\ ChatbotService.processChatMessage userMessage w
     = ([ModelCall (extractionCall userMessage w);
         ModelCall (generalPrompt userMessage (JString "other"))],
        match model_invoke w (generalPrompt userMessage (JString "other")) with
        | Ok reply =>
            Ok (JObject [("reply", JString reply);
                         ("intent", JString "other");
                         ("availableSlots", JNull);
                         ("date", JNull)])
        | Throw e => Throw e
        end).
Proof.
  intros Hmodel Hno.
  assert (Hextract :
    ChatbotService.extractDateAndIntent userMessage w
      = ([ModelCall (extractionCall userMessage w)], Ok ChatbotService.fallbackIntent)).
  { rewrite (extract_run userMessage w content Hmodel).
    unfold noEnvelope in Hno.
    destruct (Str.matchBraces (Str.trim content)); [now rewrite Hno | reflexivity]. }
  split; [exact Hextract |].
  unfold ChatbotService.processChatMessage.
  rewrite try_catch_rethrow.
  rewrite (bind_ok _ _ w _ _ Hextract).
  cbn -[model_invoke].
  destruct (model_invoke w (generalPrompt userMessage (JString "other"))); reflexivity.
Qed.

(** C8 as stated fails on its second half: an answer whose [date] is "soon",
    which is no calendar date, is passed on as it is, not replaced by the
    fallback; [processChatMessage] then looks slots up for it.  Over the
    Prisma store the invalid bounds are rejected and the chat endpoint answers
    500; over a store that accepts them the reply carries the date "soon" and
    the nine weekday slots. *)
Lemma unparseable_oracle_date_is_not_replaced :
  let rt := Host.runtime 0 in
  let w := Host.world [] (answering answerWithBadDate) in
  let req := {| query := JObject [];
                body := JObject [("message", JString "an appointment soon")] |} in
  Date_new (JString "soon") = InvalidDate
  /\ snd (ChatbotService.extractDateAndIntent (JString "an appointment soon") w)
     = Ok (JObject [("intent", JString "appointment_query");
                    ("date", JString "soon");
                    ("userFriendlyDate", JNull)])
  /\ snd (ChatbotService.extractDateAndIntent (JString "an appointment soon") w)
     <> Ok ChatbotService.fallbackIntent
  /\ snd (ChatbotService.processChatMessage (JString "an appointment soon") w)
     = Throw {| message := "Provided Date object is invalid" |}
  /\ snd (ChatbotController.handleChatMessage req w)
     = Ok (respond 500 (failure "Failed to process message. Please try again."))
  /\ snd (ChatbotService.processChatMessage (JString "an appointment soon")
            (lenientWorld (answering answerWithBadDate)))
     = Ok (JObject [("reply", JString "How can I help you?");
                    ("intent", JString "appointment_query");
                    ("availableSlots",
                     JArray (map (fun slot => JString (display slot)) weekdaySchedule));
                    ("date", JString "soon")]).
Proof.
  cbv zeta. repeat split; try reflexivity.
  vm_compute. discriminate.
Qed.

(** ** Counting slots *)

Lemma pushSlots_hours (f : Z -> string) (n : nat) (h e x : Z) :
  In x (map hour (pushSlots f n h e)) <-> h <= x < e /\ x < h + Z.of_nat n.
Proof.
  revert h. induction n as [| n IH]; intros h.
  - cbn. lia.
  - cbn [pushSlots]. destruct (Z.ltb_spec h e) as [Hlt | Hge].
    + cbn [map In slotAt hour]. rewrite IH. lia.
    + cbn. lia.
Qed.

Lemma pushSlots_NoDup (f : Z -> string) (n : nat) (h e : Z) :
  NoDup (map hour (pushSlots f n h e)).
Proof.
  revert h. induction n as [| n IH]; intros h.
  - constructor.
  - cbn [pushSlots]. destruct (h <? e); [| constructor].
    cbn [map slotAt hour]. constructor; [| apply IH].
    rewrite pushSlots_hours. lia.
Qed.

Lemma pushSlots_length (f : Z -> string) (n : nat) (h e : Z) :
  h + Z.of_nat n <= e -> List.length (pushSlots f n h e) = n.
Proof.
  revert h. induction n as [| n IH]; intros h Hle; [reflexivity |].
  cbn [pushSlots]. destruct (Z.ltb_spec h e) as [Hlt | Hge]; [| lia].
  cbn [List.length]. rewrite IH by lia. reflexivity.
Qed.

Lemma generateSlots_hours (f : Z -> string) (s e x : Z) :
  In x (map hour (generateSlots f s e)) <-> s <= x < e.
Proof.
  unfold generateSlots. rewrite pushSlots_hours. lia.
Qed.

Lemma generateSlots_length (f : Z -> string) (s e : Z) :
  s <= e -> Z.of_nat (List.length (generateSlots f s e)) = e - s.
Proof.
  intros Hle. unfold generateSlots. rewrite pushSlots_length; lia.
Qed.

Lemma includes_In (hours : list Z) (h : Z) : includes hours h = true <-> In h hours.
Proof.
  unfold includes. rewrite existsb_exists. split.
  - intros (x & Hin & Heq). apply Z.eqb_eq in Heq. now subst.
  - intros Hin. exists h. split; [exact Hin | apply Z.eqb_refl].
Qed.

Section Counting.
Context {rt : JsRuntime}.

Lemma openSlots_hours (dayOfWeek : option Z) (rows : list Prisma.Row) :
  map hour (openSlots dayOfWeek rows)
  = filter (fun h => negb (includes (bookedHoursOf rows) h))
           (map hour (generateSlots AppointmentController.formatHourDisplay
                                    (fst (hoursOf dayOfWeek)) (snd (hoursOf dayOfWeek)))).
Proof.
  unfold openSlots. now rewrite filter_map_swap.
Qed.

Lemma openSlots_NoDup (dayOfWeek : option Z) (rows : list Prisma.Row) :
  NoDup (map hour (openSlots dayOfWeek rows)).
Proof.
  rewrite openSlots_hours. apply NoDup_filter. apply pushSlots_NoDup.
Qed.

(** Open slots and occupied hours partition the day's slots. *)
Lemma open_plus_occupied (dayOfWeek : option Z) (rows : list Prisma.Row) :
  (List.length (openSlots dayOfWeek rows)
   + List.length (occupiedHours (fst (hoursOf dayOfWeek)) (snd (hoursOf dayOfWeek)) rows)
   = List.length (generateSlots AppointmentController.formatHourDisplay
                                (fst (hoursOf dayOfWeek)) (snd (hoursOf dayOfWeek))))%nat.
Proof.
  set (s := fst (hoursOf dayOfWeek)). set (e := snd (hoursOf dayOfWeek)).
  set (all := generateSlots AppointmentController.formatHourDisplay s e).
  set (booked := fun slot : TimeSlot => includes (bookedHoursOf rows) (hour slot)).
  rewrite <- (filter_length booked all), Nat.add_comm. f_equal.
  rewrite <- (length_map hour (filter booked all)).
  apply Permutation_length, NoDup_Permutation.
  - apply NoDup_nodup.
  - unfold booked.
    rewrite <- (filter_map_swap (fun h => includes (bookedHoursOf rows) h) hour).
    apply NoDup_filter, pushSlots_NoDup.
  - intros x. unfold occupiedHours, booked.
    rewrite nodup_In, filter_In.
    rewrite <- (filter_map_swap (fun h => includes (bookedHoursOf rows) h) hour).
    rewrite filter_In, includes_In. unfold all. rewrite generateSlots_hours.
    rewrite andb_true_iff, Z.leb_le, Z.ltb_lt. tauto.
Qed.

Lemma filter_both {A} (p q : A -> bool) (l : list A) :
  filter (fun x => p x && q x) l = filter p (filter q l).
Proof.
  induction l as [| a l IH]; [reflexivity |].
  cbn. destruct (q a) eqn:Eq, (p a) eqn:Ep; cbn; rewrite ?Ep, IH; reflexivity.
Qed.

End Counting.

Lemma openSlots_cons {rt : JsRuntime} (dayOfWeek : option Z) (extra : Prisma.Row)
    (rows : list Prisma.Row) :
  openSlots dayOfWeek (extra :: rows)
  = filter (fun slot => negb (hour slot =? getHours (Prisma.scheduledDate extra)))
           (openSlots dayOfWeek rows).
Proof.
  unfold openSlots, bookedHoursOf. rewrite <- filter_both. apply filter_ext.
  intros slot. cbn [map includes existsb]. now rewrite negb_orb.
Qed.

Lemma filter_absent (h : Z) (l : list TimeSlot) :
  ~ In h (map hour l) -> filter (fun slot => negb (hour slot =? h)) l = l.
Proof.
  induction l as [| a l IH]; [reflexivity |].
  cbn. intros Hnot. destruct (Z.eqb_spec (hour a) h) as [Heq | Hne].
  - exfalso. apply Hnot. now left.
  - cbn. rewrite IH; [reflexivity |]. intros Hin. apply Hnot. now right.
Qed.

Lemma filter_one_hour (h : Z) (l : list TimeSlot) :
  NoDup (map hour l) ->
  (List.length l <= S (List.length (filter (fun slot => negb (hour slot =? h)%Z) l)))%nat.
Proof.
  induction l as [| a l IH]; cbn; [lia |].
  intros Hnd. inversion Hnd as [| x xs Hnot Hrest]; subst.
  destruct (Z.eqb_spec (hour a) h) as [Heq | Hne]; cbn.
  - subst h. rewrite (filter_absent _ _ Hnot). lia.
  - specialize (IH Hrest). lia.
Qed.

(** C2, as the code has it: on a day with business hours [bookedSlots] is the
    number of bookings the query returned, each counted, whatever its hour;
    [totalSlots] is the length of the business-hour interval; the open slots
    are as many as the interval's hours less the distinct occupied hours
    inside it; and one more booking removes at most one slot, none when its
    hour is booked already. *)
Theorem booked_slots_counts_bookings {rt : JsRuntime} (w : World) (req : Request)
    (date : JsValue) (rows : list Prisma.Row) :
  destructure "date" (query req) = Ok date ->
  truthy date = true ->
  strictEq (getDay (Date_new date)) 0 = false ->
  appointment_findMany w (dayQuery date) = Ok rows ->
  let dayOfWeek := getDay (Date_new date) in
  let startHour := fst (hoursOf dayOfWeek) in
  let endHour := snd (hoursOf dayOfWeek) in
  let data := get "data" (payloadOf (AppointmentController.getAvailableTimeSlots req w)) in
  get "bookedSlots" data = JNumber (Z.of_nat (List.length rows))
  /\ get "totalSlots" data = JNumber (endHour - startHour)
  /\ get "availableSlots" data = JArray (map slotJson (openSlots dayOfWeek rows))
  /\ Z.of_nat (List.length (openSlots dayOfWeek rows))
     = (endHour - startHour) - Z.of_nat (List.length (occupiedHours startHour endHour rows))
  /\ (forall extra : Prisma.Row,
        (List.length (openSlots dayOfWeek rows)
         <= S (List.length (openSlots dayOfWeek (extra :: rows))))%nat
        /\ (In (getHours (Prisma.scheduledDate extra)) (bookedHoursOf rows) ->
            openSlots dayOfWeek (extra :: rows) = openSlots dayOfWeek rows)).
Proof.
  intros Hreq Htruthy Hopen Hstore dayOfWeek startHour endHour data.
  assert (Hle : startHour <= endHour).
  { unfold startHour, endHour, hoursOf. destruct (strictEq dayOfWeek 6); cbn; lia. }
  assert (Hdata : data = get "data" (slotsPayload date rows)).
  { unfold data, payloadOf.
    now rewrite (api_run req w date Hreq), Htruthy, Hopen, Hstore. }
  assert (Htotal : Z.of_nat (List.length
            (generateSlots AppointmentController.formatHourDisplay startHour endHour))
          = endHour - startHour) by now apply generateSlots_length.
  rewrite Hdata. unfold slotsPayload. fold dayOfWeek.
  rewrite (surjective_pairing (hoursOf dayOfWeek)). fold startHour endHour.
  repeat split.
  - cbn. now rewrite Htotal.
  - pose proof (open_plus_occupied dayOfWeek rows) as Hsum.
    fold startHour endHour in Hsum. lia.
  - rewrite openSlots_cons. apply filter_one_hour, openSlots_NoDup.
  - intros Hin. rewrite openSlots_cons.
    set (kept := openSlots dayOfWeek rows).
    assert (Hall : forall slot, In slot kept ->
              negb (hour slot =? getHours (Prisma.scheduledDate extra)) = true).
    { intros slot Hs. unfold kept, openSlots in Hs.
      apply filter_In in Hs as [_ Hfree].
      destruct (Z.eqb_spec (hour slot) (getHours (Prisma.scheduledDate extra)))
        as [Heq | Hne]; [| reflexivity].
      exfalso. apply negb_true_iff in Hfree.
      rewrite <- Heq in Hin. apply includes_In in Hin. congruence. }
    clearbody kept. clear -Hall. induction kept as [| a l IH]; [reflexivity |].
    cbn. rewrite (Hall a) by now left.
    f_equal. apply IH. intros slot Hs. apply Hall. now right.
Qed.

Lemma booked_slots_counts_bookings_witness :
  let rt := Host.runtime 0 in
  let w := Host.world crowdedMonday (fun _ => Ok "Hello!") in
  let date := JString "2025-11-10" in
  let req := {| query := JObject [("date", date)]; body := JUndefined |} in
  let data := get "data" (payloadOf (AppointmentController.getAvailableTimeSlots req w)) in
  get "bookedSlots" data = JNumber 3
  /\ get "totalSlots" data = JNumber 9.
Proof.
  intros rt w date req data.
  destruct (@booked_slots_counts_bookings rt w req date crowdedMondayRows)
    as (Hbooked & Htotal & _).
  - reflexivity.
  - reflexivity.
  - reflexivity.
  - reflexivity.
  - split; [exact Hbooked | exact Htotal].
Defined.

(** C2 as stated fails: with two bookings in the hour from 10:00 and one at
    20:00 the only occupied business hour is 10 and eight of the nine slots
    are open, yet [bookedSlots] is 3. *)
Lemma booked_slots_is_not_distinct_hours :
  let rt := Host.runtime 0 in
  let w := Host.world crowdedMonday (fun _ => Ok "Hello!") in
  let date := JString "2025-11-10" in
  let req := {| query := JObject [("date", date)]; body := JUndefined |} in
  let data := get "data" (payloadOf (AppointmentController.getAvailableTimeSlots req w)) in
  appointment_findMany w (dayQuery date) = Ok crowdedMondayRows
  /\ occupiedHours 9 18 crowdedMondayRows = [10]
  /\ get "bookedSlots" data = JNumber 3
  /\ get "bookedSlots" data
     <> JNumber (Z.of_nat (List.length (occupiedHours 9 18 crowdedMondayRows)))
  /\ get "totalSlots" data = JNumber 9
  /\ get "availableSlots" data
     = JArray (map slotJson
                 (filter (fun slot => negb (hour slot =? 10)) weekdaySchedule)).
Proof.
  cbv zeta. repeat split; try reflexivity.
  vm_compute. discriminate.
Qed.

(** ** Which bookings block a slot *)

(** C4 at that table: the booking API leaves 2:00 PM open and counts one
    booked slot of nine, and so does the chat service; the earlier chat
    service, whose query excludes cancelled bookings only, withdraws 14:00. *)
Theorem legacy_completed_booking_blocks :
  let rt := Host.runtime 0 in
  let w := Host.world wednesdayTable (fun _ => Ok "Hello!") in
  let date := JString "2025-11-12" in
  let req := {| query := JObject [("date", date)]; body := JUndefined |} in
  snd (AppointmentController.getAvailableTimeSlots req w)
    = Ok (respond 200
            (schedulePayload date (JString "Wednesday") "9:00 AM - 6:00 PM"
               (filter (fun slot => negb (hour slot =? 9)) weekdaySchedule) 9 1))
  /\ snd (ChatbotService.getAvailableTimeSlots date w)
     = Ok ["10:00 AM"; "11:00 AM"; "12:00 PM"; "1:00 PM"; "2:00 PM"; "3:00 PM";
           "4:00 PM"; "5:00 PM"]
  /\ snd (LegacyChatbotService.getAvailableTimeSlots date w)
     = Ok ["10:00"; "11:00"; "12:00"; "13:00"; "15:00"; "16:00"; "17:00"].
Proof.
  cbv zeta. repeat split.
Qed.

(** C5 at that table: the booking API and the chat service withdraw the slot
    of hour 9; the earlier chat service, which compares "09:30" with "09:00",
    still offers it. *)
Theorem legacy_misses_half_hour_booking :
  let rt := Host.runtime 0 in
  let w := Host.world halfPastNine (fun _ => Ok "Hello!") in
  let date := JString "2025-11-10" in
  let req := {| query := JObject [("date", date)]; body := JUndefined |} in
  snd (AppointmentController.getAvailableTimeSlots req w)
    = Ok (respond 200
            (schedulePayload date (JString "Monday") "9:00 AM - 6:00 PM"
               (filter (fun slot => negb (hour slot =? 9)) weekdaySchedule) 9 1))
  /\ snd (ChatbotService.getAvailableTimeSlots date w)
     = Ok ["10:00 AM"; "11:00 AM"; "12:00 PM"; "1:00 PM"; "2:00 PM"; "3:00 PM";
           "4:00 PM"; "5:00 PM"]
  /\ snd (LegacyChatbotService.getAvailableTimeSlots date w)
     = Ok ["09:00"; "10:00"; "11:00"; "12:00"; "13:00"; "14:00"; "15:00"; "16:00";
           "17:00"].
Proof.
  cbv zeta. repeat split.
Qed.

(** ** The current handlers on the two points above *)

Section CurrentHandlers.
Context {rt : JsRuntime}.

Lemma day_bounds (t0 t : Z) :
  UTC (Day (LocalTime t0) * msPerDay) <= t
    <= UTC (Day (LocalTime t0) * msPerDay + 23 * msPerHour + 59 * msPerMinute
            + 59 * 1000 + 999)
  <-> onDayOf t0 t.
Proof.
  unfold onDayOf, UTC, Day, LocalTime, msPerDay, msPerHour, msPerMinute.
  set (d := (t0 + LocalTZA) / 86400000).
  pose proof (Z.div_mod (t + LocalTZA) 86400000 ltac:(lia)) as Hdm.
  pose proof (Z.mod_pos_bound (t + LocalTZA) 86400000 ltac:(lia)) as Hb.
  split; intros H.
  - assert (d * 86400000 <= t + LocalTZA < (d + 1) * 86400000) as Hr by lia.
    symmetry. apply (Z.div_unique (t + LocalTZA) 86400000 d (t + LocalTZA - d * 86400000));
      lia.
  - rewrite <- H. lia.
Qed.

Lemma dayQuery_valid (date : JsValue) (t0 : Z) :
  Date_new date = TimeValue t0 ->
  dayQuery date
  = {| Prisma.gte := TimeValue (UTC (Day (LocalTime t0) * msPerDay));
       Prisma.lte := TimeValue (UTC (Day (LocalTime t0) * msPerDay + 23 * msPerHour
                                     + 59 * msPerMinute + 59 * 1000 + 999));
       Prisma.status_filter :=
         Prisma.status_in [Prisma.scheduled; Prisma.confirmed; Prisma.in_progress] |}.
Proof.
  intros H. unfold dayQuery, setHours. rewrite H. do 2 f_equal. f_equal. lia.
Qed.

Lemma findMany_valid (date : JsValue) (t0 : Z) (table : list Prisma.appointment) :
  Date_new date = TimeValue t0 ->
  Prisma.findMany table (dayQuery date) = Ok (rowsOn t0 table).
Proof.
  intros H. rewrite (dayQuery_valid date t0 H). reflexivity.
Qed.

Lemma rowsOn_hours (t0 : Z) (table : list Prisma.appointment) (h : Z) :
  In h (bookedHoursOf (rowsOn t0 table))
  <-> exists a, In a table /\ onDayOf t0 (Prisma.scheduled_date a)
                /\ blocks (Prisma.status a) = true
                /\ getHours (Prisma.scheduled_date a) = h.
Proof.
  unfold bookedHoursOf, rowsOn. rewrite map_map, in_map_iff. cbn [Prisma.scheduledDate].
  split.
  - intros (a & Hh & Hin). apply filter_In in Hin as [Hin Hm].
    apply andb_prop in Hm as [Hrange Hblocks].
    apply andb_prop in Hrange as [Hlo Hhi].
    exists a. repeat split; try assumption.
    apply day_bounds. split; [now apply Z.leb_le | now apply Z.leb_le].
  - intros (a & Hin & Hday & Hblocks & Hh).
    exists a. split; [exact Hh |]. apply filter_In. split; [exact Hin |].
    apply day_bounds in Hday as [Hlo Hhi].
    apply Z.leb_le in Hlo, Hhi. now rewrite Hlo, Hhi, Hblocks.
Qed.

(** A booking of the day whose status is scheduled, confirmed or in progress
    withdraws the slot of its hour, in the booking API and in the chat
    service alike. *)
Lemma blocking_booking_withdraws_slot (date : JsValue) (t0 : Z)
    (table : list Prisma.appointment) (a : Prisma.appointment) :
  Date_new date = TimeValue t0 ->
  In a table ->
  onDayOf t0 (Prisma.scheduled_date a) ->
  blocks (Prisma.status a) = true ->
  exists rows,
    Prisma.findMany table (dayQuery date) = Ok rows
    /\ ~ In (getHours (Prisma.scheduled_date a))
            (map hour (openSlots (getDay (Date_new date)) rows)).
Proof.
  intros Hdate Hin Hday Hblocks.
  exists (rowsOn t0 table). split; [now apply findMany_valid |].
  rewrite openSlots_hours, filter_In. intros [_ Hfree].
  apply negb_true_iff in Hfree.
  assert (Hbooked : In (getHours (Prisma.scheduled_date a))
                       (bookedHoursOf (rowsOn t0 table))).
  { apply rowsOn_hours. exists a. repeat split; assumption. }
  apply includes_In in Hbooked. congruence.
Qed.

(** A booking whose status is completed or cancelled changes no answer of the
    store to the day's query, hence no answer of the two handlers. *)
Lemma non_blocking_booking_is_ignored (date : JsValue)
    (before after : list Prisma.appointment) (a : Prisma.appointment) :
  blocks (Prisma.status a) = false ->
  Prisma.findMany (before ++ a :: after) (dayQuery date)
  = Prisma.findMany (before ++ after) (dayQuery date).
Proof.
  intros Hfree. unfold Prisma.findMany, dayQuery. cbn [Prisma.gte Prisma.lte].
  destruct (setHours (Date_new date) 0 0 0 0) as [| lo]; [reflexivity |].
  destruct (setHours (Date_new date) 23 59 59 999) as [| hi]; [reflexivity |].
  do 2 f_equal. rewrite !filter_app. f_equal. cbn [filter].
  unfold Prisma.matches at 1. cbn [Prisma.status_filter Prisma.status_matches].
  unfold blocks in Hfree. rewrite Hfree, andb_false_r. reflexivity.
Qed.

End CurrentHandlers.

Section CurrentHandlersOverTables.
Context {rt : JsRuntime}.

Lemma api_reads_day_query (req : Request) (w1 w2 : World) :
  (forall date, appointment_findMany w1 (dayQuery date)
                = appointment_findMany w2 (dayQuery date)) ->
  AppointmentController.getAvailableTimeSlots req w1
  = AppointmentController.getAvailableTimeSlots req w2.
Proof.
  intros Hsame.
  destruct (destructure "date" (query req)) as [date | e] eqn:Hreq.
  - now rewrite !(api_run req _ date Hreq), Hsame.
  - unfold AppointmentController.getAvailableTimeSlots, try_catch, bind, lift.
    now rewrite Hreq.
Qed.

Lemma chat_reads_day_query (date : JsValue) (w1 w2 : World) :
  appointment_findMany w1 (dayQuery date) = appointment_findMany w2 (dayQuery date) ->
  ChatbotService.getAvailableTimeSlots date w1
  = ChatbotService.getAvailableTimeSlots date w2.
Proof.
  intros Hsame. now rewrite !chat_run, Hsame.
Qed.

(** X1: adding a completed or cancelled booking to the table changes neither the
    answer of the booking API nor that of the chat service. *)
Lemma completed_or_cancelled_never_blocks (req : Request) (date : JsValue)
    (answer : Prompt -> Exc string)
    (before after : list Prisma.appointment) (a : Prisma.appointment) :
  Prisma.status a = Prisma.completed \/ Prisma.status a = Prisma.cancelled ->
  AppointmentController.getAvailableTimeSlots req (Host.world (before ++ a :: after) answer)
  = AppointmentController.getAvailableTimeSlots req (Host.world (before ++ after) answer)
  /\ ChatbotService.getAvailableTimeSlots date (Host.world (before ++ a :: after) answer)
     = ChatbotService.getAvailableTimeSlots date (Host.world (before ++ after) answer).
Proof.
  intros Hstatus.
  assert (Hfree : blocks (Prisma.status a) = false)
    by (destruct Hstatus as [-> | ->]; reflexivity).
  split.
  - apply api_reads_day_query. intros d. cbn [appointment_findMany Host.world].
    now apply non_blocking_booking_is_ignored.
  - apply chat_reads_day_query. cbn [appointment_findMany Host.world].
    now apply non_blocking_booking_is_ignored.
Qed.

Lemma onTheHour_local (t : Z) :
  LocalTime (onTheHour t) = msPerHour * (LocalTime t / msPerHour).
Proof.
  unfold onTheHour, LocalTime.
  pose proof (Z.div_mod (t + LocalTZA) msPerHour ltac:(unfold msPerHour; lia)). lia.
Qed.

Lemma getHours_onTheHour (t : Z) : getHours (onTheHour t) = getHours t.
Proof.
  unfold getHours, HourFromTime. rewrite onTheHour_local.
  rewrite Z.mul_comm, Z.div_mul by (unfold msPerHour; lia). reflexivity.
Qed.

Lemma onDayOf_onTheHour (t0 t : Z) : onDayOf t0 (onTheHour t) <-> onDayOf t0 t.
Proof.
  unfold onDayOf, Day. rewrite onTheHour_local.
  replace msPerDay with (msPerHour * 24) by reflexivity.
  rewrite <- !Z.div_div by (unfold msPerHour; lia).
  rewrite (Z.mul_comm msPerHour), Z.div_mul by (unfold msPerHour; lia).
  reflexivity.
Qed.

(** X2: the booking API and the chat service compare hours only: moving every
    booking of the table to the start of its hour, 09:30 to 09:00, changes
    the answer of neither. *)
Lemma minutes_are_ignored (req : Request) (date : JsValue)
    (answer : Prompt -> Exc string) (table : list Prisma.appointment) :
  AppointmentController.getAvailableTimeSlots req (Host.world (map rounded table) answer)
  = AppointmentController.getAvailableTimeSlots req (Host.world table answer)
  /\ ChatbotService.getAvailableTimeSlots date (Host.world (map rounded table) answer)
     = ChatbotService.getAvailableTimeSlots date (Host.world table answer).
Proof.
  assert (Hrows : forall t0, bookedHoursOf (rowsOn t0 (map rounded table))
                             = bookedHoursOf (rowsOn t0 table)).
  { intros t0. unfold bookedHoursOf, rowsOn. rewrite !map_map.
    cbn [Prisma.scheduledDate].
    induction table as [| a l IH]; [reflexivity |].
    cbn [map filter rounded Prisma.scheduled_date Prisma.status].
    assert (Hsame :
      (UTC (Day (LocalTime t0) * msPerDay) <=? onTheHour (Prisma.scheduled_date a))
      && (onTheHour (Prisma.scheduled_date a)
          <=? UTC (Day (LocalTime t0) * msPerDay + 23 * msPerHour + 59 * msPerMinute
                   + 59 * 1000 + 999))
      = (UTC (Day (LocalTime t0) * msPerDay) <=? Prisma.scheduled_date a)
        && (Prisma.scheduled_date a
            <=? UTC (Day (LocalTime t0) * msPerDay + 23 * msPerHour + 59 * msPerMinute
                     + 59 * 1000 + 999))).
    { apply eq_true_iff_eq. rewrite !andb_true_iff, !Z.leb_le.
      rewrite !day_bounds. apply onDayOf_onTheHour. }
    rewrite Hsame.
    destruct (_ && _ && blocks (Prisma.status a));
      cbn [map rounded Prisma.scheduled_date];
      [rewrite getHours_onTheHour; f_equal |]; exact IH. }
  assert (Hlen : forall t0, List.length (rowsOn t0 (map rounded table))
                            = List.length (rowsOn t0 table)).
  { intros t0. rewrite <- (length_map (fun apt => getHours (Prisma.scheduledDate apt))).
    fold (bookedHoursOf (rowsOn t0 (map rounded table))).
    rewrite Hrows. unfold bookedHoursOf. now rewrite length_map. }
  assert (Hpayload : forall d t0,
            Date_new d = TimeValue t0 ->
            slotsPayload d (rowsOn t0 (map rounded table)) = slotsPayload d (rowsOn t0 table)).
  { intros d t0 Hd. unfold slotsPayload, openSlots.
    fold (bookedHoursOf (rowsOn t0 (map rounded table))).
    fold (bookedHoursOf (rowsOn t0 table)).
    now rewrite Hrows, Hlen. }
  split.
  - destruct (destructure "date" (query req)) as [d | e] eqn:Hreq.
    + rewrite !(api_run req _ d Hreq). cbn [appointment_findMany Host.world].
      destruct (Date_new d) as [| t0] eqn:Hd.
      * unfold dayQuery, Prisma.findMany. rewrite Hd. reflexivity.
      * rewrite !(findMany_valid d t0 _ Hd), (Hpayload d t0 Hd). reflexivity.
    + unfold AppointmentController.getAvailableTimeSlots, try_catch, bind, lift.
      now rewrite Hreq.
  - rewrite !chat_run. cbn [appointment_findMany Host.world].
    destruct (Date_new date) as [| t0] eqn:Hd.
    + unfold dayQuery, Prisma.findMany. rewrite Hd. reflexivity.
    + rewrite !(findMany_valid date t0 _ Hd). unfold openSlots.
      fold (bookedHoursOf (rowsOn t0 (map rounded table))).
      fold (bookedHoursOf (rowsOn t0 table)).
      now rewrite Hrows.
Qed.

End CurrentHandlersOverTables.

(** * Further properties of the handlers *)

(** ** Labels and slots *)

Lemma in_hours_below (n : nat) (h : Z) :
  0 <= h < Z.of_nat n -> In h (map Z.of_nat (seq 0 n)).
Proof.
  intros Hh. apply in_map_iff. exists (Z.to_nat h). split; [lia |].
  apply in_seq. lia.
Qed.

(** X3: over the hours of a day [formatHourDisplay] is one to one, so a label
    names its slot; midnight is "12:00 AM" and noon "12:00 PM"; the copy in
    the chat service gives the same labels. *)
Theorem hour_labels_are_distinct (h1 h2 : Z) :
  0 <= h1 < 24 ->
  0 <= h2 < 24 ->
  (AppointmentController.formatHourDisplay h1 = AppointmentController.formatHourDisplay h2
   -> h1 = h2)
  /\ ChatbotService.formatHourDisplay h1 = AppointmentController.formatHourDisplay h1
  /\ AppointmentController.formatHourDisplay 0 = "12:00 AM"
  /\ AppointmentController.formatHourDisplay 12 = "12:00 PM".
Proof.
  intros H1 H2. repeat split.
  intros Hsame.
  assert (Hall :
    forallb (fun a =>
      forallb (fun b =>
        negb (AppointmentController.formatHourDisplay a
              =? AppointmentController.formatHourDisplay b)%string
        || (a =? b))
        (map Z.of_nat (seq 0 24)))
      (map Z.of_nat (seq 0 24)) = true) by (vm_compute; reflexivity).
  rewrite forallb_forall in Hall.
  specialize (Hall h1 (in_hours_below 24 h1 H1)).
  rewrite forallb_forall in Hall.
  specialize (Hall h2 (in_hours_below 24 h2 H2)).
  rewrite Hsame, String.eqb_refl in Hall. cbn [negb orb] in Hall.
  now apply Z.eqb_eq.
Qed.

Lemma hour_labels_are_distinct_witness :
  (AppointmentController.formatHourDisplay 1 = AppointmentController.formatHourDisplay 13
   -> 1 = 13)
  /\ ChatbotService.formatHourDisplay 1 = "1:00 AM"
  /\ AppointmentController.formatHourDisplay 13 = "1:00 PM".
Proof.
  destruct (hour_labels_are_distinct 1 13) as (Hinj & Hcopy & _); [lia | lia |].
  split; [exact Hinj | split; [exact Hcopy | reflexivity]].
Defined.

Lemma StronglySorted_filter {A} (R : A -> A -> Prop) (p : A -> bool) (l : list A) :
  StronglySorted R l -> StronglySorted R (filter p l).
Proof.
  induction 1 as [| a l Hl IH Hall]; cbn; [constructor |].
  destruct (p a); [| exact IH].
  constructor; [exact IH |].
  apply Forall_forall. intros x Hx. apply filter_In in Hx as [Hx _].
  rewrite Forall_forall in Hall. now apply Hall.
Qed.

Lemma pushSlots_ascending (f : Z -> string) (n : nat) (h e : Z) :
  StronglySorted Z.lt (map hour (pushSlots f n h e)).
Proof.
  revert h. induction n as [| n IH]; intros h; [constructor |].
  cbn [pushSlots]. destruct (h <? e); [| constructor].
  cbn [map slotAt hour]. constructor; [apply IH |].
  apply Forall_forall. intros x Hx. apply pushSlots_hours in Hx. lia.
Qed.

Lemma pushSlots_shape (f : Z -> string) (n : nat) (h e : Z) :
  Forall (fun slot => slot = slotAt f (hour slot)) (pushSlots f n h e).
Proof.
  revert h. induction n as [| n IH]; intros h; [constructor |].
  cbn [pushSlots]. destruct (h <? e); [| constructor].
  constructor; [reflexivity | apply IH].
Qed.

(** X4: on a day with business hours the [availableSlots] of the booking API
    hold the hour [h] exactly when [h] lies in [startHour, endHour) and no
    booking the query returned has that hour; they are in ascending order of
    hour, none twice, and each is the slot literal of its hour. *)
Theorem available_slots_characterised {rt : JsRuntime} (w : World) (req : Request)
    (date : JsValue) (rows : list Prisma.Row) :
  destructure "date" (query req) = Ok date ->
  truthy date = true ->
  strictEq (getDay (Date_new date)) 0 = false ->
  appointment_findMany w (dayQuery date) = Ok rows ->
  exists slots : list TimeSlot,
    get "availableSlots"
        (get "data" (payloadOf (AppointmentController.getAvailableTimeSlots req w)))
      = JArray (map slotJson slots)
    /\ (forall h : Z,
          In h (map hour slots)
          <-> fst (hoursOf (getDay (Date_new date))) <= h
                < snd (hoursOf (getDay (Date_new date)))
              /\ ~ In h (bookedHoursOf rows))
    /\ StronglySorted Z.lt (map hour slots)
    /\ Forall (fun slot =>
                 slot = slotAt AppointmentController.formatHourDisplay (hour slot)) slots.
Proof.
  intros Hreq Htruthy Hopen Hstore.
  exists (openSlots (getDay (Date_new date)) rows). repeat split.
  - unfold payloadOf.
    rewrite (api_run req w date Hreq), Htruthy, Hopen, Hstore. cbn [negb snd json respond].
    unfold slotsPayload. destruct (hoursOf (getDay (Date_new date))). reflexivity.
  - rewrite openSlots_hours in H. apply filter_In in H as [H _].
    apply generateSlots_hours in H. lia.
  - rewrite openSlots_hours in H. apply filter_In in H as [H _].
    apply generateSlots_hours in H. lia.
  - rewrite openSlots_hours in H. apply filter_In in H as [_ H].
    apply negb_true_iff in H. intros Hin. apply includes_In in Hin. congruence.
  - intros [Hrange Hfree]. rewrite openSlots_hours. apply filter_In. split.
    + now apply generateSlots_hours.
    + apply negb_true_iff. destruct (includes (bookedHoursOf rows) h) eqn:E;
        [| reflexivity].
      apply includes_In in E. contradiction.
  - rewrite openSlots_hours. apply StronglySorted_filter, pushSlots_ascending.
  - unfold openSlots. apply Forall_forall. intros slot Hs.
    apply filter_In in Hs as [Hs _].
    pose proof (pushSlots_shape AppointmentController.formatHourDisplay
                  (Z.to_nat (snd (hoursOf (getDay (Date_new date)))
                             - fst (hoursOf (getDay (Date_new date)))))
                  (fst (hoursOf (getDay (Date_new date))))
                  (snd (hoursOf (getDay (Date_new date))))) as Hshape.
    rewrite Forall_forall in Hshape. now apply Hshape.
Qed.

Lemma available_slots_characterised_witness :
  let rt := Host.runtime 0 in
  let w := Host.world crowdedMonday (fun _ => Ok "Hello!") in
  let date := JString "2025-11-10" in
  let req := {| query := JObject [("date", date)]; body := JUndefined |} in
  exists slots : list TimeSlot,
    get "availableSlots"
        (get "data" (payloadOf (AppointmentController.getAvailableTimeSlots req w)))
      = JArray (map slotJson slots)
    /\ (In 10 (map hour slots) <-> 9 <= 10 < 18 /\ ~ In 10 [10; 10; 20]).
Proof.
  intros rt w date req.
  destruct (@available_slots_characterised rt w req date crowdedMondayRows)
    as (slots & Hpayload & Hiff & _).
  - reflexivity.
  - reflexivity.
  - reflexivity.
  - reflexivity.
  - exists slots. split; [exact Hpayload | exact (Hiff 10)].
Defined.

(** X5: the three numbers of a 200 answer are consistent: the available slots
    are at most [totalSlots] and at least [totalSlots - bookedSlots]. *)
Theorem available_between_bounds {rt : JsRuntime} (w : World) (req : Request)
    (date : JsValue) (rows : list Prisma.Row) :
  destructure "date" (query req) = Ok date ->
  truthy date = true ->
  strictEq (getDay (Date_new date)) 0 = false ->
  appointment_findMany w (dayQuery date) = Ok rows ->
  exists (total booked : Z) (slots : list JsValue),
    let data :=
      get "data" (payloadOf (AppointmentController.getAvailableTimeSlots req w)) in
    get "totalSlots" data = JNumber total
    /\ get "bookedSlots" data = JNumber booked
    /\ get "availableSlots" data = JArray slots
    /\ total - booked <= Z.of_nat (List.length slots) <= total.
Proof.
  intros Hreq Htruthy Hopen Hstore.
  set (d := getDay (Date_new date)).
  exists (Z.of_nat (List.length (generateSlots AppointmentController.formatHourDisplay
                                   (fst (hoursOf d)) (snd (hoursOf d))))),
         (Z.of_nat (List.length rows)),
         (map slotJson (openSlots d rows)).
  cbv zeta. unfold payloadOf.
  rewrite (api_run req w date Hreq), Htruthy, Hopen, Hstore. cbn [negb snd json respond].
  unfold slotsPayload. fold d. rewrite (surjective_pairing (hoursOf d)).
  cbn [fst snd]. repeat split.
  - rewrite length_map. pose proof (open_plus_occupied d rows) as Hsum.
    assert (Hocc : (List.length (occupiedHours (fst (hoursOf d)) (snd (hoursOf d)) rows)
                    <= List.length rows)%nat).
    { rewrite <- (length_map (fun apt => getHours (Prisma.scheduledDate apt)) rows).
      apply NoDup_incl_length; [apply NoDup_nodup |].
      intros x Hx. unfold occupiedHours in Hx. apply nodup_In in Hx.
      apply filter_In in Hx as [Hx _]. exact Hx. }
    lia.
  - rewrite length_map. pose proof (open_plus_occupied d rows) as Hsum. lia.
Qed.

Lemma available_between_bounds_witness :
  let rt := Host.runtime 0 in
  let w := Host.world crowdedMonday (fun _ => Ok "Hello!") in
  let date := JString "2025-11-10" in
  let req := {| query := JObject [("date", date)]; body := JUndefined |} in
  exists (total booked : Z) (slots : list JsValue),
    let data :=
      get "data" (payloadOf (AppointmentController.getAvailableTimeSlots req w)) in
    get "totalSlots" data = JNumber total
    /\ get "bookedSlots" data = JNumber booked
    /\ get "availableSlots" data = JArray slots
    /\ total - booked <= Z.of_nat (List.length slots) <= total.
Proof.
  intros rt w date req.
  apply (@available_between_bounds rt w req date crowdedMondayRows).
  - reflexivity.
  - reflexivity.
  - reflexivity.
  - reflexivity.
Defined.

(** X6: the handler of the booking API always answers: its status is 200, 400
    or 500, it is 400 exactly when the [date] parameter is absent or empty,
    and it queries the store at most once and never calls the model. *)
Theorem slots_endpoint_always_answers {rt : JsRuntime} (w : World) (req : Request)
    (date : JsValue) :
  destructure "date" (query req) = Ok date ->
  exists res : Response,
    snd (AppointmentController.getAvailableTimeSlots req w) = Ok res
    /\ (statusCode res = 200 \/ statusCode res = 400 \/ statusCode res = 500)
    /\ (statusCode res = 400 <-> truthy date = false)
    /\ (fst (AppointmentController.getAvailableTimeSlots req w) = []
        \/ fst (AppointmentController.getAvailableTimeSlots req w)
           = [FindManyCall (dayQuery date)]).
Proof.
  intros Hreq. rewrite (api_run req w date Hreq).
  destruct (truthy date); cbn [negb].
  - destruct (strictEq (getDay (Date_new date)) 0).
    + eexists. split; [reflexivity |]. cbn. repeat split; auto; intros; discriminate || lia.
    + destruct (appointment_findMany w (dayQuery date)) as [rows | e];
        (eexists; split; [reflexivity |]; cbn;
         repeat split; auto; intros; discriminate || lia).
  - eexists. split; [reflexivity |]. cbn. repeat split; auto.
Qed.

Lemma slots_endpoint_always_answers_witness :
  let rt := Host.runtime 0 in
  let w := Host.world [] (fun _ => Ok "Hello!") in
  let req := {| query := JObject [("date", JString "")]; body := JUndefined |} in
  exists res : Response,
    snd (AppointmentController.getAvailableTimeSlots req w) = Ok res
    /\ (statusCode res = 400 <-> truthy (JString "") = false).
Proof.
  intros rt w req.
  destruct (@slots_endpoint_always_answers rt w req (JString ""))
    as (res & Hres & _ & Hiff & _).
  - reflexivity.
  - exists res. split; [exact Hres | exact Hiff].
Defined.

(** ** The day of the week and the zone *)

(** X7: the day of the week is that of the date in the host's zone.  For a
    date read as UTC midnight, a zone at or east of UTC sees the UTC weekday
    and a zone west of UTC the day before: there a Monday is answered as a
    Sunday, closed. *)
Theorem weekday_follows_the_zone {rt : JsRuntime} (w : World) (req : Request)
    (date : JsValue) (t : Z) :
  destructure "date" (query req) = Ok date ->
  truthy date = true ->
  Date_new date = TimeValue t ->
  t mod msPerDay = 0 ->
  (0 <= LocalTZA < msPerDay -> getDay (Date_new date) = Some (WeekDay t))
  /\ (- msPerDay <= LocalTZA < 0 ->
      getDay (Date_new date) = Some ((WeekDay t + 6) mod 7)
      /\ (WeekDay t = 1 ->
          AppointmentController.getAvailableTimeSlots req w
            = ([], Ok (respond 200 closedOnSunday)))).
Proof.
  intros Hreq Htruthy Hdate Hmid.
  assert (Ht : t = msPerDay * (t / msPerDay)).
  { pose proof (Z.div_mod t msPerDay ltac:(unfold msPerDay; lia)). lia. }
  split.
  - intros Hzone. rewrite Hdate. cbn [getDay]. f_equal.
    unfold WeekDay, Day, LocalTime. do 2 f_equal.
    symmetry. apply (Z.div_unique _ _ _ LocalTZA); [unfold msPerDay in *; lia |].
    rewrite Ht at 1. unfold msPerDay in *. lia.
  - intros Hzone.
    assert (Hday : getDay (Date_new date) = Some ((WeekDay t + 6) mod 7)).
    { rewrite Hdate. cbn [getDay]. f_equal.
      unfold WeekDay, Day, LocalTime.
      assert (Hprev : (t + LocalTZA) / msPerDay = t / msPerDay - 1).
      { symmetry. apply (Z.div_unique _ _ _ (LocalTZA + msPerDay)).
        - unfold msPerDay in *. lia.
        - rewrite Ht at 1. unfold msPerDay in *. lia. }
      rewrite Hprev.
      rewrite Zplus_mod_idemp_l.
      replace (t / msPerDay + 4 + 6) with (t / msPerDay - 1 + 4 + 1 * 7) by lia.
      now rewrite Z_mod_plus_full. }
    split; [exact Hday |].
    intros Hmonday.
    rewrite (api_run req w date Hreq), Htruthy, Hday, Hmonday. reflexivity.
Qed.

Lemma weekday_follows_the_zone_witness :
  let rt := Host.runtime (-18000000) in
  let w := Host.world [] (fun _ => Ok "Hello!") in
  let date := JString "2025-11-10" in
  let req := {| query := JObject [("date", date)]; body := JUndefined |} in
  WeekDay 1762732800000 = 1
  /\ AppointmentController.getAvailableTimeSlots req w
     = ([], Ok (respond 200 closedOnSunday)).
Proof.
  intros rt w date req. split; [reflexivity |].
  refine (proj2 (proj2 (@weekday_follows_the_zone rt w req date 1762732800000 _ _ _ _) _) _).
  - reflexivity.
  - reflexivity.
  - reflexivity.
  - reflexivity.
  - cbn. lia.
  - reflexivity.
Defined.

(** ** Bookings over a table *)



Lemma completed_or_cancelled_never_blocks_witness :
  let rt := Host.runtime 0 in
  let date := JString "2025-11-10" in
  let req := {| query := JObject [("date", date)]; body := JUndefined |} in
  let answer := fun _ : Prompt => Ok "Hello!" in
  let a := {| Prisma.scheduled_date := 1762783200000; Prisma.status := Prisma.completed |} in
  AppointmentController.getAvailableTimeSlots
    req (Host.world ([] ++ a :: halfPastNine) answer)
  = AppointmentController.getAvailableTimeSlots req (Host.world ([] ++ halfPastNine) answer)
  /\ ChatbotService.getAvailableTimeSlots
       date (Host.world ([] ++ a :: halfPastNine) answer)
     = ChatbotService.getAvailableTimeSlots date (Host.world ([] ++ halfPastNine) answer).
Proof.
  intros rt date req answer a.
  apply (@completed_or_cancelled_never_blocks rt req date answer [] halfPastNine a).
  left. reflexivity.
Defined.

(** ** The chat service on a parsed answer *)

Lemma extract_parsed {rt : JsRuntime} (userMessage : JsValue) (w : World)
    (content jsonMatch : string) (parsed : JsValue) :
  model_invoke w (extractionCall userMessage w) = Ok content ->
  Str.matchBraces (Str.trim content) = Some jsonMatch ->
  JSON_parse jsonMatch = Some parsed ->
  ChatbotService.extractDateAndIntent userMessage w
  = ([ModelCall (extractionCall userMessage w)], Ok parsed).
Proof.
  intros Hmodel Hmatch Hparse.
  now rewrite (extract_run userMessage w content Hmodel), Hmatch, Hparse.
Qed.

Section ParsedAnswer.
Context {rt : JsRuntime}.
Variables (w : World) (userMessage : JsValue) (content jsonMatch : string).
Variable fields : list (string * JsValue).
Hypothesis Hmodel : model_invoke w (extractionCall userMessage w) = Ok content.
Hypothesis Hmatch : Str.matchBraces (Str.trim content) = Some jsonMatch.
Hypothesis Hparse : JSON_parse jsonMatch = Some (JObject fields).

Let intent : JsValue := assoc "intent" fields.
Let date : JsValue := assoc "date" fields.
Let userFriendlyDate : JsValue := assoc "userFriendlyDate" fields.

Lemma bind_run {A B} (m : IO A) (k : A -> IO B) (w' : World) tr r :
  m w' = (tr, r) ->
  bind m k w'
  = match r with
    | Ok a => ((tr ++ fst (k a w'))%list, snd (k a w'))
    | Throw e => (tr, Throw e)
    end.
Proof.
  intros Hm. unfold bind. rewrite Hm. destruct r as [a | e]; [| reflexivity].
  destruct (k a w'); reflexivity.
Qed.

Lemma bind_lift_ok {A B} (a : A) (k : A -> IO B) (w' : World) :
  bind (lift (Ok a)) k w' = k a w'.
Proof.
  unfold bind, lift. destruct (k a w'); reflexivity.
Qed.

Lemma process_parsed :
  ChatbotService.processChatMessage userMessage w
  = let branch :=
      if ChatbotService.isAppointmentQuery intent && truthy date then
        bind (ChatbotService.getAvailableTimeSlots date) (fun availableSlots =>
        bind (ChatbotService.generateTimeSlotResponse availableSlots date userFriendlyDate)
             (fun reply =>
        ret (JObject [("reply", JString reply);
                      ("intent", intent);
                      ("availableSlots", JArray (map JString availableSlots));
                      ("date", date)])))
      else
        bind (ChatbotService.generateGeneralResponse userMessage intent) (fun reply =>
        ret (JObject [("reply", JString reply);
                      ("intent", intent);
                      ("availableSlots", JNull);
                      ("date", JNull)])) in
    (ModelCall (extractionCall userMessage w) :: fst (branch w), snd (branch w)).
Proof.
  unfold ChatbotService.processChatMessage.
  rewrite try_catch_rethrow.
  rewrite (bind_ok _ _ w _ _ (extract_parsed userMessage w content jsonMatch _
                                Hmodel Hmatch Hparse)).
  cbn [destructure get]. rewrite !bind_lift_ok. reflexivity.
Qed.

(** X9: whatever intent the model names, unless it is [appointment_query]
    with a date that is not empty, the chat service makes one more call to the
    model, for the general reply, and none to the store; the result repeats
    the intent and has neither slots nor date, also when the model's answer
    carried a date. *)
Theorem other_intents_get_general_reply :
  ChatbotService.isAppointmentQuery intent && truthy date = false ->
  ChatbotService.processChatMessage userMessage w
  = ([ModelCall (extractionCall userMessage w);
      ModelCall (generalPrompt userMessage intent)],
     match model_invoke w (generalPrompt userMessage intent) with
     | Ok reply =>
         Ok (JObject [("reply", JString reply);
                      ("intent", intent);
                      ("availableSlots", JNull);
                      ("date", JNull)])
     | Throw e => Throw e
     end).
Proof.
  intros Hother. rewrite process_parsed, Hother. cbv zeta.
  unfold bind, ChatbotService.generateGeneralResponse, invoke, ret.
  destruct (model_invoke w (generalPrompt userMessage intent)); reflexivity.
Qed.

(** X10: for the intent [appointment_query] with a date on a day with business
    hours, the chat service queries the store once, for that day, then asks
    the model for the reply.  The prompt names the business hours the booking
    API reports for that day and the slots joined by commas, or the sentence
    that all are booked when none is left; the result carries the labels of
    the open slots and the date as the model gave it. *)
Theorem appointment_query_on_open_day (rows : list Prisma.Row) :
  ChatbotService.isAppointmentQuery intent = true ->
  truthy date = true ->
  strictEq (getDay (Date_new date)) 0 = false ->
  appointment_findMany w (dayQuery date) = Ok rows ->
  let dayOfWeek := getDay (Date_new date) in
  let labels := map display (openSlots dayOfWeek rows) in
  let prompt :=
    responsePrompt date (js_or userFriendlyDate date) (dayAt dayOfWeek)
      (AppointmentController.formatHourDisplay (fst (hoursOf dayOfWeek)) ++ " - "
       ++ AppointmentController.formatHourDisplay (snd (hoursOf dayOfWeek)))
      (if (0 <? List.length labels)%nat then String.concat ", " labels
       else "Unfortunately, all slots are fully booked") in
  ChatbotService.processChatMessage userMessage w
  = ([ModelCall (extractionCall userMessage w); FindManyCall (dayQuery date);
      ModelCall prompt],
     match model_invoke w prompt with
     | Ok reply =>
         Ok (JObject [("reply", JString reply);
                      ("intent", intent);
                      ("availableSlots", JArray (map JString labels));
                      ("date", date)])
     | Throw e => Throw e
     end).
Proof.
  intros Hintent Htruthy Hopen Hstore dayOfWeek labels prompt.
  assert (Hchat : ChatbotService.getAvailableTimeSlots date w
                  = ([FindManyCall (dayQuery date)], Ok labels))
    by now rewrite chat_run, Hopen, Hstore.
  assert (Hreply : ChatbotService.generateTimeSlotResponse labels date userFriendlyDate w
                   = ([ModelCall prompt], model_invoke w prompt)).
  { unfold ChatbotService.generateTimeSlotResponse. rewrite Hopen. fold dayOfWeek.
    replace (if strictEq dayOfWeek 6 then "8:00 AM - 7:00 PM" else "9:00 AM - 6:00 PM")
      with (AppointmentController.formatHourDisplay (fst (hoursOf dayOfWeek)) ++ " - "
            ++ AppointmentController.formatHourDisplay (snd (hoursOf dayOfWeek)))
      by (unfold hoursOf; destruct (strictEq dayOfWeek 6); reflexivity).
    reflexivity. }
  rewrite process_parsed, Hintent, Htruthy. cbn [andb]. cbv zeta.
  rewrite (bind_run _ _ w _ _ Hchat), (bind_run _ _ w _ _ Hreply).
  destruct (model_invoke w prompt); reflexivity.
Qed.

(** X11: for the intent [appointment_query] with a date that falls on a
    Sunday, the chat service does not query the store: it asks the model for
    the closed-on-Sundays reply and returns an empty list of slots with the
    date. *)
Theorem appointment_query_on_sunday :
  ChatbotService.isAppointmentQuery intent = true ->
  truthy date = true ->
  getDay (Date_new date) = Some 0 ->
  let prompt := sundayResponsePrompt (js_or userFriendlyDate date) (JString "Sunday") in
  ChatbotService.processChatMessage userMessage w
  = ([ModelCall (extractionCall userMessage w); ModelCall prompt],
     match model_invoke w prompt with
     | Ok reply =>
         Ok (JObject [("reply", JString reply);
                      ("intent", intent);
                      ("availableSlots", JArray []);
                      ("date", date)])
     | Throw e => Throw e
     end).
Proof.
  intros Hintent Htruthy Hsunday prompt.
  assert (Hchat : ChatbotService.getAvailableTimeSlots date w = ([], Ok []))
    by now rewrite chat_run, Hsunday.
  assert (Hreply : ChatbotService.generateTimeSlotResponse [] date userFriendlyDate w
                   = ([ModelCall prompt], model_invoke w prompt)).
  { unfold ChatbotService.generateTimeSlotResponse. rewrite Hsunday. reflexivity. }
  rewrite process_parsed, Hintent, Htruthy. cbn [andb]. cbv zeta.
  rewrite (bind_run _ _ w _ _ Hchat), (bind_run _ _ w _ _ Hreply).
  destruct (model_invoke w prompt); reflexivity.
Qed.

(** X12: when the store's query throws, the chat service throws the same
    error after the two calls made so far, and does not ask the model for a
    reply. *)
Theorem store_failure_reaches_the_caller (e : JsError) :
  ChatbotService.isAppointmentQuery intent = true ->
  truthy date = true ->
  strictEq (getDay (Date_new date)) 0 = false ->
  appointment_findMany w (dayQuery date) = Throw e ->
  ChatbotService.processChatMessage userMessage w
  = ([ModelCall (extractionCall userMessage w); FindManyCall (dayQuery date)], Throw e).
Proof.
  intros Hintent Htruthy Hopen Hstore.
  assert (Hchat : ChatbotService.getAvailableTimeSlots date w
                  = ([FindManyCall (dayQuery date)], Throw e))
    by now rewrite chat_run, Hopen, Hstore.
  rewrite process_parsed, Hintent, Htruthy. cbn [andb]. cbv zeta.
  now rewrite (bind_run _ _ w _ _ Hchat).
Qed.

End ParsedAnswer.

(** C8, as the code has it: when no JSON envelope can be extracted from the
    model's answer, [extractDateAndIntent] returns [{intent: "other", date:
    null, userFriendlyDate: null}] without throwing, and [processChatMessage]
    goes on to the general reply with intent "other", no slots and no date;
    only a failure of that second call to the model is thrown.  The [date] of
    an answer that parses to an object is not validated.  With the intent
    [appointment_query] and a truthy date the slot lookup runs on that date as
    it is: its error is thrown on, its slots go to the reply and the date is
    returned unchanged, and for a date that does not parse the store is
    queried between invalid bounds.  With any other intent, or a falsy date,
    the general reply is given and the date is dropped. *)
Theorem unextractable_answer_falls_back {rt : JsRuntime} (w : World)
    (userMessage : JsValue) (content : string) :
  model_invoke w (extractionCall userMessage w) = Ok content ->
  (noEnvelope content ->
   ChatbotService.extractDateAndIntent userMessage w
     = ([ModelCall (extractionCall userMessage w)], Ok ChatbotService.fallbackIntent)
   /\ ChatbotService.processChatMessage userMessage w
      = ([ModelCall (extractionCall userMessage w);
          ModelCall (generalPrompt userMessage (JString "other"))],
         match model_invoke w (generalPrompt userMessage (JString "other")) with
         | Ok reply =>
             Ok (JObject [("reply", JString reply);
                          ("intent", JString "other");
                          ("availableSlots", JNull);
                          ("date", JNull)])
         | Throw e => Throw e
         end))
  /\ (forall (jsonMatch : string) (fields : list (string * JsValue)),
        Str.matchBraces (Str.trim content) = Some jsonMatch ->
        JSON_parse jsonMatch = Some (JObject fields) ->
        let intent := assoc "intent" fields in
        let date := assoc "date" fields in
        let userFriendlyDate := assoc "userFriendlyDate" fields in
        ChatbotService.extractDateAndIntent userMessage w
          = ([ModelCall (extractionCall userMessage w)], Ok (JObject fields))
        /\ (ChatbotService.isAppointmentQuery intent = true ->
            truthy date = true ->
            (forall (tr : list Event) (e : JsError),
               ChatbotService.getAvailableTimeSlots date w = (tr, Throw e) ->
               ChatbotService.processChatMessage userMessage w
               = (ModelCall (extractionCall userMessage w) :: tr, Throw e))
            /\ (forall (tr : list Event) (slots : list string),
                  ChatbotService.getAvailableTimeSlots date w = (tr, Ok slots) ->
                  ChatbotService.processChatMessage userMessage w
                  = (((ModelCall (extractionCall userMessage w) :: tr)
                      ++ fst (ChatbotService.generateTimeSlotResponse
                                slots date userFriendlyDate w))%list,
                     match snd (ChatbotService.generateTimeSlotResponse
                                  slots date userFriendlyDate w) with
                     | Ok reply =>
                         Ok (JObject [("reply", JString reply);
                                      ("intent", intent);
                                      ("availableSlots", JArray (map JString slots));
                                      ("date", date)])
                     | Throw e => Throw e
                     end))
            /\ (Date_new date = InvalidDate ->
                fst (ChatbotService.getAvailableTimeSlots date w)
                = [FindManyCall (dayQuery date)]))
        /\ (ChatbotService.isAppointmentQuery intent && truthy date = false ->
            ChatbotService.processChatMessage userMessage w
            = ([ModelCall (extractionCall userMessage w);
                ModelCall (generalPrompt userMessage intent)],
               match model_invoke w (generalPrompt userMessage intent) with
               | Ok reply =>
                   Ok (JObject [("reply", JString reply);
                                ("intent", intent);
                                ("availableSlots", JNull);
                                ("date", JNull)])
               | Throw e => Throw e
               end))).
Proof.
  intros Hmodel. split.
  - intros Hno. exact (no_envelope_run w userMessage content Hmodel Hno).
  - intros jsonMatch fields Hmatch Hparse intent date userFriendlyDate.
    split.
    { exact (extract_parsed userMessage w content jsonMatch _ Hmodel Hmatch Hparse). }
    pose proof (process_parsed w userMessage content jsonMatch fields
                  Hmodel Hmatch Hparse) as Hrun.
    cbv zeta in Hrun. fold intent date userFriendlyDate in Hrun.
    split.
    + intros Hintent Htruthy. rewrite Hrun, Hintent, Htruthy. cbn [andb].
      repeat split.
      * intros tr e Hchat. now rewrite (bind_run _ _ w _ _ Hchat).
      * intros tr slots Hchat. rewrite (bind_run _ _ w _ _ Hchat).
        cbn [fst snd].
        rewrite (bind_run _ _ w _ _
                   (surjective_pairing
                      (ChatbotService.generateTimeSlotResponse
                         slots date userFriendlyDate w))).
        destruct (snd (ChatbotService.generateTimeSlotResponse
                         slots date userFriendlyDate w)) as [reply | e];
          cbn [fst snd ret app]; rewrite ?app_nil_r; reflexivity.
      * intros Hinvalid. rewrite chat_run, Hinvalid. cbn [getDay strictEq].
        destruct (appointment_findMany w (dayQuery date)); reflexivity.
    + intros Hother. rewrite Hrun, Hother.
      unfold bind, ChatbotService.generateGeneralResponse, invoke, ret.
      destruct (model_invoke w (generalPrompt userMessage intent)); reflexivity.
Qed.

Lemma unextractable_answer_falls_back_witness :
  let rt := Host.runtime 0 in
  ChatbotService.processChatMessage (JString "Random text")
    (Host.world [] (answering "Not JSON"))
  = ([ModelCall (extractionPrompt (JString "Random text") "2025-11-06");
      ModelCall (generalPrompt (JString "Random text") (JString "other"))],
     Ok (JObject [("reply", JString "How can I help you?");
                  ("intent", JString "other");
                  ("availableSlots", JNull);
                  ("date", JNull)]))
  /\ ChatbotService.processChatMessage (JString "an appointment soon")
       (Host.world [] (answering answerWithBadDate))
     = ([ModelCall (extractionPrompt (JString "an appointment soon") "2025-11-06");
         FindManyCall (dayQuery (JString "soon"))],
        Throw {| message := "Provided Date object is invalid" |}).
Proof.
  intros rt. split.
  - refine (proj2 (proj1 (@unextractable_answer_falls_back rt
                            (Host.world [] (answering "Not JSON"))
                            (JString "Random text") "Not JSON" _) _)).
    + reflexivity.
    + exact I.
  - refine (proj1 (proj1 (proj2 (proj2 (@unextractable_answer_falls_back rt
                            (Host.world [] (answering answerWithBadDate))
                            (JString "an appointment soon") answerWithBadDate _)
                          answerWithBadDate
                          [("intent", JString "appointment_query");
                           ("date", JString "soon");
                           ("userFriendlyDate", JNull)] _ _)) _ _)
                  [FindManyCall (dayQuery (JString "soon"))]
                  {| message := "Provided Date object is invalid" |} _).
    + reflexivity.
    + reflexivity.
    + reflexivity.
    + reflexivity.
    + reflexivity.
    + reflexivity.
Defined.

Lemma other_intents_get_general_reply_witness :
  let rt := Host.runtime 0 in
  let w := Host.world mondayTable (answering answerGreeting) in
  ChatbotService.processChatMessage (JString "Hello") w
  = ([ModelCall (extractionPrompt (JString "Hello") "2025-11-06");
      ModelCall (generalPrompt (JString "Hello") (JString "greeting"))],
     Ok (JObject [("reply", JString "How can I help you?");
                  ("intent", JString "greeting");
                  ("availableSlots", JNull);
                  ("date", JNull)])).
Proof.
  intros rt w.
  apply (@other_intents_get_general_reply rt w (JString "Hello") answerGreeting
           answerGreeting
           [("intent", JString "greeting"); ("date", JString "2025-12-15")]).
  - reflexivity.
  - reflexivity.
  - reflexivity.
  - reflexivity.
Defined.

Lemma appointment_query_on_open_day_witness :
  let rt := Host.runtime 0 in
  let w := Host.world mondayTable (answering (answerFor "2025-11-10")) in
  ChatbotService.processChatMessage (JString "Monday?") w
  = ([ModelCall (extractionPrompt (JString "Monday?") "2025-11-06");
      FindManyCall (dayQuery (JString "2025-11-10"));
      ModelCall (responsePrompt (JString "2025-11-10") (JString "2025-11-10")
                   (JString "Monday") "9:00 AM - 6:00 PM"
                   "10:00 AM, 11:00 AM, 12:00 PM, 1:00 PM, 2:00 PM, 3:00 PM, 4:00 PM, 5:00 PM")],
     Ok (JObject [("reply", JString "How can I help you?");
                  ("intent", JString "appointment_query");
                  ("availableSlots",
                   JArray (map JString ["10:00 AM"; "11:00 AM"; "12:00 PM"; "1:00 PM";
                                        "2:00 PM"; "3:00 PM"; "4:00 PM"; "5:00 PM"]));
                  ("date", JString "2025-11-10")])).
Proof.
  intros rt w.
  apply (@appointment_query_on_open_day rt w (JString "Monday?")
           (answerFor "2025-11-10") (answerFor "2025-11-10")
           [("intent", JString "appointment_query"); ("date", JString "2025-11-10");
            ("userFriendlyDate", JNull)]
           eq_refl eq_refl eq_refl
           [ {| Prisma.scheduledDate := 1762765200000 |} ]).
  - reflexivity.
  - reflexivity.
  - reflexivity.
  - reflexivity.
Defined.

Lemma appointment_query_on_sunday_witness :
  let rt := Host.runtime 0 in
  let w := Host.world sundayTable (answering (answerFor "2025-11-09")) in
  ChatbotService.processChatMessage (JString "Sunday?") w
  = ([ModelCall (extractionPrompt (JString "Sunday?") "2025-11-06");
      ModelCall (sundayResponsePrompt (JString "2025-11-09") (JString "Sunday"))],
     Ok (JObject [("reply", JString "How can I help you?");
                  ("intent", JString "appointment_query");
                  ("availableSlots", JArray []);
                  ("date", JString "2025-11-09")])).
Proof.
  intros rt w.
  apply (@appointment_query_on_sunday rt w (JString "Sunday?")
           (answerFor "2025-11-09") (answerFor "2025-11-09")
           [("intent", JString "appointment_query"); ("date", JString "2025-11-09");
            ("userFriendlyDate", JNull)]).
  - reflexivity.
  - reflexivity.
  - reflexivity.
  - reflexivity.
  - reflexivity.
  - reflexivity.
Defined.

Lemma store_failure_reaches_the_caller_witness :
  let rt := Host.runtime 0 in
  let e := {| message := "Can't reach database server" |} in
  let w := brokenStoreWorld (answering (answerFor "2025-11-10")) e in
  ChatbotService.processChatMessage (JString "Monday?") w
  = ([ModelCall (extractionPrompt (JString "Monday?") "2025-11-06");
      FindManyCall (dayQuery (JString "2025-11-10"))],
     Throw e).
Proof.
  intros rt e w.
  apply (@store_failure_reaches_the_caller rt w (JString "Monday?")
           (answerFor "2025-11-10") (answerFor "2025-11-10")
           [("intent", JString "appointment_query"); ("date", JString "2025-11-10");
            ("userFriendlyDate", JNull)]
           eq_refl eq_refl eq_refl e).
  - reflexivity.
  - reflexivity.
  - reflexivity.
  - reflexivity.
Defined.

(** ** Failures of the model and the chat endpoint *)

(** X13: the call to the model for the extraction is outside the [try]: when
    it throws, [extractDateAndIntent] throws the same error, with no fallback,
    and so does [processChatMessage], after that one call. *)
Theorem extraction_failure_is_thrown {rt : JsRuntime} (w : World)
    (userMessage : JsValue) (e : JsError) :
  model_invoke w (extractionCall userMessage w) = Throw e ->
  ChatbotService.extractDateAndIntent userMessage w
    = ([ModelCall (extractionCall userMessage w)], Throw e)
  /\ ChatbotService.processChatMessage userMessage w
     = ([ModelCall (extractionCall userMessage w)], Throw e).
Proof.
  intros Hmodel.
  assert (Hextract : ChatbotService.extractDateAndIntent userMessage w
                     = ([ModelCall (extractionCall userMessage w)], Throw e)).
  { unfold ChatbotService.extractDateAndIntent, bind, currentDate, invoke.
    fold (extractionCall userMessage w). now rewrite Hmodel. }
  split; [exact Hextract |].
  unfold ChatbotService.processChatMessage.
  now rewrite try_catch_rethrow, (bind_run _ _ w _ _ Hextract).
Qed.

Lemma extraction_failure_is_thrown_witness :
  let rt := Host.runtime 0 in
  let e := {| message := "429 quota exceeded" |} in
  let w := Host.world [] (fun _ => Throw e) in
  ChatbotService.processChatMessage (JString "Hello") w
  = ([ModelCall (extractionPrompt (JString "Hello") "2025-11-06")], Throw e).
Proof.
  intros rt e w.
  refine (proj2 (@extraction_failure_is_thrown rt w (JString "Hello") e _)).
  reflexivity.
Defined.

(** X14: for a message that is a string and not blank, the chat endpoint
    makes the calls of [processChatMessage] and no other; it answers 200 with
    the service's result as [data] when the service returns, and 500 with the
    message chosen from the error's text when it throws; it never throws
    itself. *)
Theorem chat_endpoint_relays_the_service {rt : JsRuntime} (w : World) (req : Request)
    (fields : list (string * JsValue)) (s : string) :
  body req = JObject fields ->
  assoc "message" fields = JString s ->
  Str.trim s <> "" ->
  ChatbotController.handleChatMessage req w
  = (fst (ChatbotService.processChatMessage (JString s) w),
     Ok match snd (ChatbotService.processChatMessage (JString s) w) with
        | Ok result => respond 200 (JObject [("success", JBool true); ("data", result)])
        | Throw e => respond 500 (failure (ChatbotController.errorMessageFor e))
        end).
Proof.
  intros Hbody Hmessage Hblank.
  assert (Hs : s <> "") by (intros ->; now apply Hblank).
  unfold ChatbotController.handleChatMessage, try_catch.
  rewrite Hbody. cbn [destructure get]. rewrite Hmessage, bind_lift_ok.
  destruct s as [| c rest]; [congruence |]. cbn [truthy String.eqb negb js_trim].
  rewrite bind_lift_ok.
  destruct (Str.trim (String c rest)) as [| c' rest'] eqn:Htrim; [congruence |].
  cbn [String.eqb].
  destruct (ChatbotService.processChatMessage (JString (String c rest)) w)
    as [tr [result | e]] eqn:Hprocess.
  - rewrite (bind_run _ _ w _ _ Hprocess). cbn. now rewrite app_nil_r.
  - rewrite (bind_run _ _ w _ _ Hprocess). cbn. now rewrite app_nil_r.
Qed.

Lemma chat_endpoint_relays_the_service_witness :
  let rt := Host.runtime 0 in
  let e := {| message := "429 quota exceeded" |} in
  let w := Host.world [] (fun _ => Throw e) in
  let req := {| query := JObject []; body := JObject [("message", JString "Hello")] |} in
  ChatbotController.handleChatMessage req w
  = ([ModelCall (extractionPrompt (JString "Hello") "2025-11-06")],
     Ok (respond 500
           (failure "The AI service quota has been exceeded. Please try again later."))).
Proof.
  intros rt e w req.
  apply (@chat_endpoint_relays_the_service rt w req [("message", JString "Hello")]
           "Hello").
  - reflexivity.
  - reflexivity.
  - discriminate.
Defined.

(** X15: a [message] that is truthy and not a string, a number or an object,
    has no [trim]: the chat endpoint answers 500 with the general message,
    not 400, and makes no call. *)
Theorem non_string_message_is_500 {rt : JsRuntime} (w : World) (req : Request)
    (fields : list (string * JsValue)) :
  body req = JObject fields ->
  truthy (assoc "message" fields) = true ->
  (forall s : string, assoc "message" fields <> JString s) ->
  ChatbotController.handleChatMessage req w
  = ([], Ok (respond 500 (failure "Failed to process message. Please try again."))).
Proof.
  intros Hbody Htruthy Hnot.
  unfold ChatbotController.handleChatMessage, try_catch.
  rewrite Hbody. cbn [destructure get]. rewrite bind_lift_ok, Htruthy. cbn [negb].
  destruct (assoc "message" fields) as [| | b | n | s | items | props];
    try discriminate Htruthy; try reflexivity.
  exfalso. now apply (Hnot s).
Qed.

Lemma non_string_message_is_500_witness :
  let rt := Host.runtime 0 in
  let w := Host.world [] (fun _ => Ok "Hello!") in
  let req := {| query := JObject []; body := JObject [("message", JNumber 42)] |} in
  ChatbotController.handleChatMessage req w
  = ([], Ok (respond 500 (failure "Failed to process message. Please try again."))).
Proof.
  intros rt w req.
  apply (@non_string_message_is_500 rt w req [("message", JNumber 42)]).
  - reflexivity.
  - reflexivity.
  - intros s. discriminate.
Defined.

(** ** What the extraction reads of the model's answer *)

Lemma fromFirstOpen_app (pre rest : string) :
  occurs "{" pre = false ->
  Str.fromFirstOpen (pre ++ String "{" rest) = Some rest.
Proof.
  induction pre as [| c pre IH]; cbn; [reflexivity |].
  intros H. apply orb_false_elim in H as [Hc Hpre].
  rewrite Hc. now apply IH.
Qed.

Lemma uptoLastClose_none (post : string) :
  occurs "}" post = false -> Str.uptoLastClose post = None.
Proof.
  induction post as [| c post IH]; cbn; [reflexivity |].
  intros H. apply orb_false_elim in H as [Hc Hpost].
  now rewrite (IH Hpost), Hc.
Qed.

Lemma uptoLastClose_app (inner post : string) :
  occurs "}" post = false ->
  Str.uptoLastClose (inner ++ String "}" post) = Some (inner ++ "}").
Proof.
  intros Hpost. induction inner as [| c inner IH]; cbn.
  - now rewrite (uptoLastClose_none post Hpost).
  - now rewrite IH.
Qed.

Lemma whitespace_is_no_brace (c : ascii) :
  Str.isWhiteSpace c = true -> Ascii.eqb c "{" = false /\ Ascii.eqb c "}" = false.
Proof.
  intros Hws. split.
  - destruct (Ascii.eqb_spec c "{") as [-> | _]; [discriminate Hws | reflexivity].
  - destruct (Ascii.eqb_spec c "}") as [-> | _]; [discriminate Hws | reflexivity].
Qed.

Lemma fromFirstOpen_trimStart (s : string) :
  Str.fromFirstOpen (Str.trimStart s) = Str.fromFirstOpen s.
Proof.
  induction s as [| c s IH]; cbn; [reflexivity |].
  destruct (Str.isWhiteSpace c) eqn:Hws; [| reflexivity].
  destruct (whitespace_is_no_brace c Hws) as [Hopen _]. now rewrite Hopen.
Qed.

Lemma trimEnd_brace (s : string) :
  Str.trimEnd (String "{" s) = String "{" (Str.trimEnd s).
Proof.
  cbn. destruct (Str.trimEnd s); reflexivity.
Qed.

Lemma fromFirstOpen_trimEnd (s : string) :
  Str.fromFirstOpen (Str.trimEnd s) = option_map Str.trimEnd (Str.fromFirstOpen s).
Proof.
  induction s as [| c s IH]; [reflexivity |].
  destruct (Ascii.eqb_spec c "{") as [-> | Hne].
  - rewrite trimEnd_brace. reflexivity.
  - assert (Hc : Ascii.eqb c "{" = false) by now apply Ascii.eqb_neq.
    cbn [Str.fromFirstOpen Str.trimEnd]. rewrite Hc, <- IH.
    destruct (Str.trimEnd s) as [| c' t].
    + destruct (Str.isWhiteSpace c); cbn; [reflexivity | now rewrite Hc].
    + cbn. now rewrite Hc.
Qed.

Lemma uptoLastClose_trimEnd (s : string) :
  Str.uptoLastClose (Str.trimEnd s) = Str.uptoLastClose s.
Proof.
  induction s as [| c s IH]; [reflexivity |].
  cbn [Str.trimEnd Str.uptoLastClose]. rewrite <- IH.
  destruct (Str.trimEnd s) as [| c' t].
  - cbn. destruct (Str.isWhiteSpace c) eqn:Hws; [| reflexivity].
    destruct (whitespace_is_no_brace c Hws) as [_ Hclose]. now rewrite Hclose.
  - reflexivity.
Qed.

Lemma matchBraces_trim (s : string) :
  Str.matchBraces (Str.trim s) = Str.matchBraces s.
Proof.
  unfold Str.matchBraces, Str.trim.
  rewrite fromFirstOpen_trimEnd, fromFirstOpen_trimStart.
  destruct (Str.fromFirstOpen s) as [rest |]; [| reflexivity].
  cbn [option_map]. now rewrite uptoLastClose_trimEnd.
Qed.

(** X16: what the extraction parses is the text from the first opening brace
    to the last closing brace of the model's answer; words, white space or a
    fence of back quotes around it are dropped, and [JSON.parse] sees the
    object alone. *)
Theorem text_around_the_object_is_dropped {rt : JsRuntime} (w : World)
    (userMessage : JsValue) (pre inner post : string) :
  model_invoke w (extractionCall userMessage w)
    = Ok (pre ++ String "{" (inner ++ String "}" post)) ->
  occurs "{" pre = false ->
  occurs "}" post = false ->
  ChatbotService.extractDateAndIntent userMessage w
  = ([ModelCall (extractionCall userMessage w)],
     Ok match JSON_parse (String "{" (inner ++ "}")) with
        | Some parsed => parsed
        | None => ChatbotService.fallbackIntent
        end).
Proof.
  intros Hmodel Hpre Hpost.
  rewrite (extract_run userMessage w _ Hmodel), matchBraces_trim.
  unfold Str.matchBraces.
  now rewrite (fromFirstOpen_app pre _ Hpre), (uptoLastClose_app inner post Hpost).
Qed.

Lemma text_around_the_object_is_dropped_witness :
  let rt := Host.runtime 0 in
  let w := Host.world [] (answering fencedAnswer) in
  ChatbotService.extractDateAndIntent (JString "Hello") w
  = ([ModelCall (extractionPrompt (JString "Hello") "2025-11-06")],
     Ok (JObject [("intent", JString "greeting"); ("date", JString "2025-12-15")])).
Proof.
  intros rt w.
  apply (@text_around_the_object_is_dropped rt w (JString "Hello") "```json "
           (quoted "intent" ++ ":" ++ quoted "greeting" ++ ","
            ++ quoted "date" ++ ":" ++ quoted "2025-12-15")
           " ```").
  - reflexivity.
  - reflexivity.
  - reflexivity.
Defined.

(** ** Where the earlier chat service agrees *)







(** ** Cancelling an appointment *)

Section Cancelling.
Variable Columns : Type.
Variable touch : Columns -> Columns.
Variable rowJson : CustomerAppointments.Appointment Columns -> JsValue.

Lemma find_nowhere {A} (p : A -> bool) (l : list A) :
  (forall x, In x l -> p x = false) -> find p l = None.
Proof.
  induction l as [| x l IH]; intros H; [reflexivity |].
  cbn. rewrite (H x) by now left. apply IH. intros y Hy. apply H. now right.
Qed.

Lemma find_the_one {A} (p : A -> bool) (before after : list A) (a : A) :
  (forall x, In x before -> p x = false) ->
  p a = true ->
  find p (before ++ a :: after) = Some a.
Proof.
  intros Hbefore Ha. induction before as [| x before IH]; cbn.
  - now rewrite Ha.
  - rewrite (Hbefore x) by now left. apply IH. intros y Hy. apply Hbefore. now right.
Qed.

Lemma other_ids (before after : list (CustomerAppointments.Appointment Columns)) (a x : CustomerAppointments.Appointment Columns) :
  NoDup (map (CustomerAppointments.appointment_id Columns) (before ++ a :: after)) ->
  In x before \/ In x after ->
  CustomerAppointments.appointment_id Columns x
  <> CustomerAppointments.appointment_id Columns a.
Proof.
  rewrite map_app. cbn [map]. intros Hnd Hx Heq.
  apply NoDup_remove_2 in Hnd. apply Hnd. rewrite <- Heq.
  apply in_or_app. destruct Hx as [Hx | Hx]; [left | right]; now apply in_map.
Qed.

Lemma userId_is_read (req : CustomerAppointments.AuthRequest) (uid : Z) :
  get "userId" (CustomerAppointments.user req) = JNumber uid ->
  CustomerAppointments.userIdOf req = Ok (JNumber uid).
Proof.
  unfold CustomerAppointments.userIdOf.
  destruct (CustomerAppointments.user req); cbn; intros H;
    try discriminate H; now rewrite H.
Qed.

Lemma cancel_own_run (req : CustomerAppointments.AuthRequest)
    (db : CustomerAppointments.Database Columns) (uid n : Z) (c : CustomerAppointments.Customer)
    (before after : list (CustomerAppointments.Appointment Columns)) (a : CustomerAppointments.Appointment Columns) :
  get "userId" (CustomerAppointments.user req) = JNumber uid ->
  parseInt (CustomerAppointments.appointmentId req) = Some n ->
  find (fun x => CustomerAppointments.customer_userId x =? uid)
       (CustomerAppointments.customers Columns db) = Some c ->
  CustomerAppointments.appointments Columns db = (before ++ a :: after)%list ->
  NoDup (map (CustomerAppointments.appointment_id Columns) (before ++ a :: after)) ->
  CustomerAppointments.appointment_id Columns a = n ->
  CustomerAppointments.appointment_customerId Columns a
    = CustomerAppointments.customer_id c ->
  CustomerAppointments.cancelAppointment Columns touch rowJson req db
  = ({| CustomerAppointments.customers := CustomerAppointments.customers Columns db;
        CustomerAppointments.appointments := (before ++ CustomerAppointments.withStatus Columns touch Prisma.cancelled a :: after)%list |},
     Ok (respond 200
           (JObject [("success", JBool true);
                     ("message", JString "Appointment cancelled successfully");
                     ("data", rowJson (CustomerAppointments.withStatus Columns touch Prisma.cancelled a))]))).
Proof.
  intros Huser Hid Hcustomer Htable Hnd Hn Howner.
  assert (Hothers : forall x, In x before \/ In x after ->
            (CustomerAppointments.appointment_id Columns x =? n) = false).
  { intros x Hx. apply Z.eqb_neq. rewrite <- Hn. now apply (other_ids before after). }
  unfold CustomerAppointments.cancelAppointment, CustomerAppointments.try_catch,
    CustomerAppointments.bind, CustomerAppointments.lift.
  rewrite (userId_is_read req uid Huser).
  unfold CustomerAppointments.customer_findUnique. rewrite Hcustomer.
  unfold CustomerAppointments.appointment_findFirst. rewrite Hid, Htable.
  rewrite (find_the_one _ before after a).
  2:{ intros x Hx. rewrite (Hothers x) by now left. reflexivity. }
  2:{ rewrite Hn, Howner, !Z.eqb_refl. reflexivity. }
  unfold CustomerAppointments.appointment_update. rewrite Htable.
  rewrite (find_the_one _ before after a).
  2:{ intros x Hx. apply Hothers. now left. }
  2:{ rewrite Hn. apply Z.eqb_refl. }
  unfold CustomerAppointments.ret. do 2 f_equal.
  rewrite map_app. cbn [map]. rewrite Hn, Z.eqb_refl. f_equal; [| f_equal].
  - rewrite <- (map_id before) at 2. apply map_ext_in. intros x Hx.
    rewrite (Hothers x) by now left. reflexivity.
  - rewrite <- (map_id after) at 2. apply map_ext_in. intros x Hx.
    rewrite (Hothers x) by now right. reflexivity.
Qed.

(** X18: an appointment of another customer cannot be cancelled: when the row
    of that id belongs to someone else the handler answers 404 "Appointment
    not found" and the database is unchanged. *)
Theorem cancel_refuses_foreign_appointment (req : CustomerAppointments.AuthRequest)
    (db : CustomerAppointments.Database Columns) (uid n : Z) (c : CustomerAppointments.Customer)
    (before after : list (CustomerAppointments.Appointment Columns)) (a : CustomerAppointments.Appointment Columns) :
  get "userId" (CustomerAppointments.user req) = JNumber uid ->
  parseInt (CustomerAppointments.appointmentId req) = Some n ->
  find (fun x => CustomerAppointments.customer_userId x =? uid)
       (CustomerAppointments.customers Columns db) = Some c ->
  CustomerAppointments.appointments Columns db = (before ++ a :: after)%list ->
  NoDup (map (CustomerAppointments.appointment_id Columns) (before ++ a :: after)) ->
  CustomerAppointments.appointment_id Columns a = n ->
  CustomerAppointments.appointment_customerId Columns a
    <> CustomerAppointments.customer_id c ->
  CustomerAppointments.cancelAppointment Columns touch rowJson req db
  = (db, Ok (respond 404 (failure "Appointment not found"))).
Proof.
  intros Huser Hid Hcustomer Htable Hnd Hn Howner.
  unfold CustomerAppointments.cancelAppointment, CustomerAppointments.try_catch,
    CustomerAppointments.bind, CustomerAppointments.lift.
  rewrite (userId_is_read req uid Huser).
  unfold CustomerAppointments.customer_findUnique. rewrite Hcustomer.
  unfold CustomerAppointments.appointment_findFirst. rewrite Hid, Htable.
  assert (Hnone :
    find (fun x => (CustomerAppointments.appointment_id Columns x =? n)
                   && (CustomerAppointments.appointment_customerId Columns x
                       =? CustomerAppointments.customer_id c))
         (before ++ a :: after) = None).
  { apply find_nowhere. intros x Hx. apply andb_false_iff.
    apply in_app_or in Hx as [Hx | [<- | Hx]].
    - left. apply Z.eqb_neq. rewrite <- Hn. apply (other_ids before after); auto.
    - right. now apply Z.eqb_neq.
    - left. apply Z.eqb_neq. rewrite <- Hn. apply (other_ids before after); auto. }
  rewrite Hnone. reflexivity.
Qed.

(** X19: the handler always answers, with 200, 404 or 500, and unless it
    answers 200 it leaves the database as it was. *)
Theorem cancel_changes_nothing_unless_200 (req : CustomerAppointments.AuthRequest)
    (db : CustomerAppointments.Database Columns) :
  exists res : Response,
    snd (CustomerAppointments.cancelAppointment Columns touch rowJson req db) = Ok res
    /\ (statusCode res = 200 \/ statusCode res = 404 \/ statusCode res = 500)
    /\ (statusCode res <> 200 -> fst (CustomerAppointments.cancelAppointment Columns touch rowJson req db) = db).
Proof.
  unfold CustomerAppointments.cancelAppointment, CustomerAppointments.try_catch,
    CustomerAppointments.bind, CustomerAppointments.lift.
  destruct (CustomerAppointments.userIdOf req) as [userId | e].
  2:{ eexists. split; [reflexivity |]. cbn. auto. }
  unfold CustomerAppointments.customer_findUnique.
  destruct userId; try (eexists; split; [reflexivity |]; cbn; now auto).
  destruct (find _ (CustomerAppointments.customers Columns db)) as [c |].
  2:{ eexists. split; [reflexivity |]. cbn. auto. }
  unfold CustomerAppointments.appointment_findFirst.
  destruct (parseInt (CustomerAppointments.appointmentId req)) as [id |].
  2:{ eexists. split; [reflexivity |]. cbn. auto. }
  destruct (find _ (CustomerAppointments.appointments Columns db)) as [a |].
  2:{ eexists. split; [reflexivity |]. cbn. auto. }
  unfold CustomerAppointments.appointment_update.
  destruct (find _ (CustomerAppointments.appointments Columns db)) as [a' |].
  - eexists. split; [reflexivity |]. cbn. split; [auto | intros H; now elim H].
  - eexists. split; [reflexivity |]. cbn. auto.
Qed.

(** X20: a customer cancels an appointment of their own.  With appointment
    ids unique, the handler answers 200 with the row as [data]; in the
    database that row, and no other, has the status cancelled, and the
    customers are as before. *)
Theorem cancel_marks_own_appointment (req : CustomerAppointments.AuthRequest)
    (db : CustomerAppointments.Database Columns) (uid n : Z)
    (c : CustomerAppointments.Customer)
    (before after : list (CustomerAppointments.Appointment Columns))
    (a : CustomerAppointments.Appointment Columns) :
  get "userId" (CustomerAppointments.user req) = JNumber uid ->
  parseInt (CustomerAppointments.appointmentId req) = Some n ->
  find (fun x => CustomerAppointments.customer_userId x =? uid)
       (CustomerAppointments.customers Columns db) = Some c ->
  CustomerAppointments.appointments Columns db = (before ++ a :: after)%list ->
  NoDup (map (CustomerAppointments.appointment_id Columns) (before ++ a :: after)) ->
  CustomerAppointments.appointment_id Columns a = n ->
  CustomerAppointments.appointment_customerId Columns a
    = CustomerAppointments.customer_id c ->
  snd (CustomerAppointments.cancelAppointment Columns touch rowJson req db)
    = Ok (respond 200
            (JObject [("success", JBool true);
                      ("message", JString "Appointment cancelled successfully");
                      ("data",
                       rowJson (CustomerAppointments.withStatus Columns touch
                                  Prisma.cancelled a))]))
  /\ CustomerAppointments.customers Columns
       (fst (CustomerAppointments.cancelAppointment Columns touch rowJson req db))
     = CustomerAppointments.customers Columns db
  /\ CustomerAppointments.appointments Columns
       (fst (CustomerAppointments.cancelAppointment Columns touch rowJson req db))
     = (before ++ CustomerAppointments.withStatus Columns touch Prisma.cancelled a
               :: after)%list
  /\ Prisma.status (CustomerAppointments.booking Columns
                      (CustomerAppointments.withStatus Columns touch Prisma.cancelled a))
     = Prisma.cancelled.
Proof.
  intros Huser Hid Hcustomer Htable Hnd Hn Howner.
  rewrite (cancel_own_run req db uid n c before after a
             Huser Hid Hcustomer Htable Hnd Hn Howner).
  repeat split.
Qed.

(** X21: a cancelled appointment frees its slot: after the handler has
    answered 200, the booking API and the chat service answer over the
    database as they would had the appointment never been in the table. *)
Theorem cancelled_appointment_frees_its_slot {rt : JsRuntime}
    (req : CustomerAppointments.AuthRequest)
    (db : CustomerAppointments.Database Columns) (uid n : Z)
    (c : CustomerAppointments.Customer)
    (before after : list (CustomerAppointments.Appointment Columns))
    (a : CustomerAppointments.Appointment Columns)
    (slotReq : Request) (date : JsValue) (answer : Prompt -> Exc string) :
  get "userId" (CustomerAppointments.user req) = JNumber uid ->
  parseInt (CustomerAppointments.appointmentId req) = Some n ->
  find (fun x => CustomerAppointments.customer_userId x =? uid)
       (CustomerAppointments.customers Columns db) = Some c ->
  CustomerAppointments.appointments Columns db = (before ++ a :: after)%list ->
  NoDup (map (CustomerAppointments.appointment_id Columns) (before ++ a :: after)) ->
  CustomerAppointments.appointment_id Columns a = n ->
  CustomerAppointments.appointment_customerId Columns a
    = CustomerAppointments.customer_id c ->
  let db' := fst (CustomerAppointments.cancelAppointment Columns touch rowJson req db) in
  let without :=
    map (CustomerAppointments.booking Columns) (before ++ after) in
  AppointmentController.getAvailableTimeSlots
    slotReq (Host.world (CustomerAppointments.bookings Columns db') answer)
  = AppointmentController.getAvailableTimeSlots slotReq (Host.world without answer)
  /\ ChatbotService.getAvailableTimeSlots
       date (Host.world (CustomerAppointments.bookings Columns db') answer)
     = ChatbotService.getAvailableTimeSlots date (Host.world without answer).
Proof.
  intros Huser Hid Hcustomer Htable Hnd Hn Howner db' without.
  assert (Hbookings :
    CustomerAppointments.bookings Columns db'
    = (map (CustomerAppointments.booking Columns) before
       ++ {| Prisma.scheduled_date :=
               Prisma.scheduled_date (CustomerAppointments.booking Columns a);
             Prisma.status := Prisma.cancelled |}
       :: map (CustomerAppointments.booking Columns) after)%list).
  { unfold db'.
    rewrite (cancel_own_run req db uid n c before after a
               Huser Hid Hcustomer Htable Hnd Hn Howner).
    unfold CustomerAppointments.bookings. cbn [fst CustomerAppointments.appointments].
    rewrite map_app. reflexivity. }
  rewrite Hbookings. unfold without. rewrite map_app.
  split.
  - apply api_reads_day_query. intros d. cbn [appointment_findMany Host.world].
    now apply non_blocking_booking_is_ignored.
  - apply chat_reads_day_query. cbn [appointment_findMany Host.world].
    now apply non_blocking_booking_is_ignored.
Qed.

End Cancelling.

Lemma cancel_marks_own_appointment_witness :
  snd (CustomerAppointments.cancelAppointment (option string) (fun x => x) exampleRowJson
         (cancelRequest 11 "5") exampleDb)
  = Ok (respond 200
          (JObject [("success", JBool true);
                    ("message", JString "Appointment cancelled successfully");
                    ("data", JObject [("id", JNumber 5);
                                      ("status", JString "cancelled")])])).
Proof.
  refine (proj1 (cancel_marks_own_appointment (option string) (fun x => x) exampleRowJson
                   (cancelRequest 11 "5") exampleDb 11 5 firstCustomer
                   [] [otherAppointment] ownAppointment _ _ _ _ _ _ _));
    try reflexivity.
  repeat constructor; cbn; intuition discriminate.
Defined.

Lemma cancel_refuses_foreign_appointment_witness :
  CustomerAppointments.cancelAppointment (option string) (fun x => x) exampleRowJson
    (cancelRequest 12 "5") exampleDb
  = (exampleDb, Ok (respond 404 (failure "Appointment not found"))).
Proof.
  refine (cancel_refuses_foreign_appointment (option string) (fun x => x) exampleRowJson
            (cancelRequest 12 "5") exampleDb 12 5
            {| CustomerAppointments.customer_id := 2;
               CustomerAppointments.customer_userId := 12 |}
            [] [otherAppointment] ownAppointment _ _ _ _ _ _ _);
    try reflexivity.
  - repeat constructor; cbn; intuition discriminate.
  - cbn. discriminate.
Defined.

Lemma cancelled_appointment_frees_its_slot_witness :
  let rt := Host.runtime 0 in
  let date := JString "2025-11-10" in
  let slotReq := {| query := JObject [("date", date)]; body := JUndefined |} in
  let answer := fun _ : Prompt => Ok "Hello!" in
  let db' := fst (CustomerAppointments.cancelAppointment (option string) (fun x => x)
                    exampleRowJson (cancelRequest 11 "5") exampleDb) in
  let without := map (CustomerAppointments.booking (option string)) ([] ++ [otherAppointment]) in
  AppointmentController.getAvailableTimeSlots
    slotReq (Host.world (CustomerAppointments.bookings (option string) db') answer)
  = AppointmentController.getAvailableTimeSlots slotReq (Host.world without answer)
  /\ ChatbotService.getAvailableTimeSlots
       date (Host.world (CustomerAppointments.bookings (option string) db') answer)
     = ChatbotService.getAvailableTimeSlots date (Host.world without answer).
Proof.
  intros rt date slotReq answer.
  refine (@cancelled_appointment_frees_its_slot (option string) (fun x => x) exampleRowJson rt
            (cancelRequest 11 "5") exampleDb 11 5 firstCustomer
            [] [otherAppointment] ownAppointment slotReq date answer
            _ _ _ _ _ _ _);
    try reflexivity.
  repeat constructor; cbn; intuition discriminate.
Defined.

(** ** Updating an appointment *)

Section Updating.
Context {rt : JsRuntime}.
Variable Columns : Type.
Variable touch : Columns -> Columns.
Variable rowJson : CustomerAppointments.Appointment Columns -> JsValue.
Variable notesOf : Columns -> option string.
Variable setNotes : option string -> Columns -> Columns.
Variable rowJsonIncluding : CustomerAppointments.Appointment Columns -> JsValue.

Lemma status_round_trip (s : Prisma.AppointmentStatus) :
  CustomerAppointments.statusOfValue (JString (CustomerAppointments.statusName s))
  = Some s.
Proof. destruct s; reflexivity. Qed.

Lemma notes_round_trip (notes : option string) :
  CustomerAppointments.notesOfValue (CustomerAppointments.notesValue notes)
  = Some notes.
Proof. destruct notes; reflexivity. Qed.

Lemma update_own_run (req : CustomerAppointments.AuthRequest)
    (db : CustomerAppointments.Database Columns) (uid n : Z)
    (c : CustomerAppointments.Customer)
    (before after : list (CustomerAppointments.Appointment Columns))
    (a : CustomerAppointments.Appointment Columns)
    (fields : list (string * JsValue))
    (st : Prisma.AppointmentStatus) (t : Z) (nt : option string) :
  get "userId" (CustomerAppointments.user req) = JNumber uid ->
  parseInt (CustomerAppointments.appointmentId req) = Some n ->
  find (fun x => CustomerAppointments.customer_userId x =? uid)
       (CustomerAppointments.customers Columns db) = Some c ->
  CustomerAppointments.appointments Columns db = (before ++ a :: after)%list ->
  NoDup (map (CustomerAppointments.appointment_id Columns) (before ++ a :: after)) ->
  CustomerAppointments.appointment_id Columns a = n ->
  CustomerAppointments.appointment_customerId Columns a
    = CustomerAppointments.customer_id c ->
  CustomerAppointments.body req = JObject fields ->
  CustomerAppointments.statusOfValue
    (js_or (assoc "status" fields)
           (JString (CustomerAppointments.statusName
                       (Prisma.status (CustomerAppointments.booking Columns a)))))
    = Some st ->
  (if truthy (assoc "scheduledDate" fields)
   then Date_new (assoc "scheduledDate" fields)
   else TimeValue (Prisma.scheduled_date (CustomerAppointments.booking Columns a)))
    = TimeValue t ->
  CustomerAppointments.notesOfValue
    (match assoc "notes" fields with
     | JUndefined =>
         CustomerAppointments.notesValue
           (notesOf (CustomerAppointments.columns Columns a))
     | _ => assoc "notes" fields
     end) = Some nt ->
  CustomerAppointments.updateAppointment Columns touch notesOf setNotes
    rowJsonIncluding req db
  = ({| CustomerAppointments.customers := CustomerAppointments.customers Columns db;
        CustomerAppointments.appointments :=
          (before
           ++ CustomerAppointments.withData Columns touch setNotes st t nt a
           :: after)%list |},
     Ok (respond 200
           (JObject [("success", JBool true);
                     ("message", JString "Appointment updated successfully");
                     ("data",
                      rowJsonIncluding
                        (CustomerAppointments.withData Columns touch setNotes
                           st t nt a))]))).
Proof.
  intros Huser Hid Hcustomer Htable Hnd Hn Howner Hbody Hstatus Hdate Hnotes.
  assert (Hothers : forall x, In x before \/ In x after ->
            (CustomerAppointments.appointment_id Columns x =? n) = false).
  { intros x Hx. apply Z.eqb_neq. rewrite <- Hn.
    now apply (other_ids Columns before after). }
  unfold CustomerAppointments.updateAppointment, CustomerAppointments.try_catch,
    CustomerAppointments.bind, CustomerAppointments.lift.
  rewrite (userId_is_read req uid Huser), Hbody.
  cbn [destructure get].
  unfold CustomerAppointments.customer_findUnique. rewrite Hcustomer.
  unfold CustomerAppointments.appointment_findFirst. rewrite Hid, Htable.
  rewrite (find_the_one _ before after a).
  2:{ intros x Hx. rewrite (Hothers x) by now left. reflexivity. }
  2:{ rewrite Hn, Howner, !Z.eqb_refl. reflexivity. }
  unfold CustomerAppointments.appointment_updateData.
  rewrite Hstatus, Hdate.
  assert (Hnotes' :
    CustomerAppointments.notesOfValue
      match assoc "notes" fields with
      | JUndefined =>
          CustomerAppointments.notesValue
            (notesOf (CustomerAppointments.columns Columns a))
      | _ => assoc "notes" fields
      end = Some nt) by exact Hnotes.
  destruct (assoc "notes" fields) eqn:Hfield; rewrite Hnotes'; clear Hnotes';
    rewrite Htable, (find_the_one _ before after a);
    try (intros x Hx; apply Hothers; now left);
    try (rewrite Hn; apply Z.eqb_refl);
    unfold CustomerAppointments.ret; do 2 f_equal;
    rewrite map_app; cbn [map]; rewrite Hn, Z.eqb_refl; (f_equal; [| f_equal]);
    try (rewrite <- (map_id before) at 2; apply map_ext_in; intros x Hx;
         rewrite (Hothers x) by (now left); reflexivity);
    try (rewrite <- (map_id after) at 2; apply map_ext_in; intros x Hx;
         rewrite (Hothers x) by (now right); reflexivity).
Qed.

Lemma kept_once {A} (p : A -> bool) (l : list A) (x : A) :
  In x l -> p x = true -> (1 <= List.length (filter p l))%nat.
Proof.
  intros Hin Hp.
  assert (Hx : In x (filter p l)) by (apply filter_In; now split).
  destruct (filter p l); [destruct Hx | cbn; lia].
Qed.

(** X22: an update that names no status, no date and no notes, as an empty
    body does, answers 200 and leaves the bookings of the database, and so
    every slot lookup, as they were. *)
Theorem update_without_fields_keeps_the_bookings (req : CustomerAppointments.AuthRequest)
    (db : CustomerAppointments.Database Columns) (uid n : Z)
    (c : CustomerAppointments.Customer)
    (before after : list (CustomerAppointments.Appointment Columns))
    (a : CustomerAppointments.Appointment Columns)
    (fields : list (string * JsValue)) :
  get "userId" (CustomerAppointments.user req) = JNumber uid ->
  parseInt (CustomerAppointments.appointmentId req) = Some n ->
  find (fun x => CustomerAppointments.customer_userId x =? uid)
       (CustomerAppointments.customers Columns db) = Some c ->
  CustomerAppointments.appointments Columns db = (before ++ a :: after)%list ->
  NoDup (map (CustomerAppointments.appointment_id Columns) (before ++ a :: after)) ->
  CustomerAppointments.appointment_id Columns a = n ->
  CustomerAppointments.appointment_customerId Columns a
    = CustomerAppointments.customer_id c ->
  CustomerAppointments.body req = JObject fields ->
  truthy (assoc "status" fields) = false ->
  truthy (assoc "scheduledDate" fields) = false ->
  assoc "notes" fields = JUndefined ->
  (exists res : Response,
     snd (CustomerAppointments.updateAppointment Columns touch notesOf setNotes
          rowJsonIncluding req db) = Ok res
     /\ statusCode res = 200)
  /\ CustomerAppointments.bookings Columns
       (fst (CustomerAppointments.updateAppointment Columns touch notesOf setNotes
          rowJsonIncluding req db))
     = CustomerAppointments.bookings Columns db
  /\ CustomerAppointments.customers Columns
       (fst (CustomerAppointments.updateAppointment Columns touch notesOf setNotes
          rowJsonIncluding req db))
     = CustomerAppointments.customers Columns db.
Proof.
  intros Huser Hid Hcustomer Htable Hnd Hn Howner Hbody Hstatus Hdate Hnotes.
  rewrite (update_own_run req db uid n c before after a fields
             (Prisma.status (CustomerAppointments.booking Columns a))
             (Prisma.scheduled_date (CustomerAppointments.booking Columns a))
             (notesOf (CustomerAppointments.columns Columns a))
             Huser Hid Hcustomer Htable Hnd Hn Howner Hbody).
  - cbn [fst snd]. split; [eexists; split; reflexivity |]. split; [| reflexivity].
    unfold CustomerAppointments.bookings.
    cbn [CustomerAppointments.appointments]. rewrite Htable, !map_app.
    cbn [map CustomerAppointments.withData CustomerAppointments.booking].
    now destruct (CustomerAppointments.booking Columns a).
  - unfold js_or. rewrite Hstatus. apply status_round_trip.
  - now rewrite Hdate.
  - rewrite Hnotes. apply notes_round_trip.
Qed.

(** X23: an update whose only field is the status [cancelled] leaves the
    database that [cancelAppointment] leaves, when writing a row's own notes
    back changes nothing; both handlers answer 200. *)
Theorem update_to_cancelled_is_cancel (req : CustomerAppointments.AuthRequest)
    (db : CustomerAppointments.Database Columns) (uid n : Z)
    (c : CustomerAppointments.Customer)
    (before after : list (CustomerAppointments.Appointment Columns))
    (a : CustomerAppointments.Appointment Columns)
    (fields : list (string * JsValue)) :
  get "userId" (CustomerAppointments.user req) = JNumber uid ->
  parseInt (CustomerAppointments.appointmentId req) = Some n ->
  find (fun x => CustomerAppointments.customer_userId x =? uid)
       (CustomerAppointments.customers Columns db) = Some c ->
  CustomerAppointments.appointments Columns db = (before ++ a :: after)%list ->
  NoDup (map (CustomerAppointments.appointment_id Columns) (before ++ a :: after)) ->
  CustomerAppointments.appointment_id Columns a = n ->
  CustomerAppointments.appointment_customerId Columns a
    = CustomerAppointments.customer_id c ->
  CustomerAppointments.body req = JObject fields ->
  assoc "status" fields = JString "cancelled" ->
  truthy (assoc "scheduledDate" fields) = false ->
  assoc "notes" fields = JUndefined ->
  (forall columns : Columns, setNotes (notesOf columns) columns = columns) ->
  fst (CustomerAppointments.updateAppointment Columns touch notesOf setNotes
          rowJsonIncluding req db)
  = fst (CustomerAppointments.cancelAppointment Columns touch rowJson req db)
  /\ (exists updated cancelled : Response,
        snd (CustomerAppointments.updateAppointment Columns touch notesOf setNotes
          rowJsonIncluding req db) = Ok updated
        /\ snd (CustomerAppointments.cancelAppointment Columns touch rowJson req db)
           = Ok cancelled
        /\ statusCode updated = 200 /\ statusCode cancelled = 200).
Proof.
  intros Huser Hid Hcustomer Htable Hnd Hn Howner Hbody Hstatus Hdate Hnotes Hlens.
  rewrite (update_own_run req db uid n c before after a fields
             Prisma.cancelled
             (Prisma.scheduled_date (CustomerAppointments.booking Columns a))
             (notesOf (CustomerAppointments.columns Columns a))
             Huser Hid Hcustomer Htable Hnd Hn Howner Hbody).
  - rewrite (cancel_own_run Columns touch rowJson req db uid n c before after a
               Huser Hid Hcustomer Htable Hnd Hn Howner).
    cbn [fst snd]. split.
    + unfold CustomerAppointments.withData, CustomerAppointments.withStatus.
      now rewrite Hlens.
    + do 2 eexists. repeat split.
  - rewrite Hstatus. reflexivity.
  - now rewrite Hdate.
  - rewrite Hnotes. apply notes_round_trip.
Qed.

(** X24: rescheduling never consults the slots.  An update of one's own
    blocking appointment to the instant at which another blocking appointment
    is booked answers 200, and afterwards at least two blocking bookings of
    the database start at that instant. *)
Theorem reschedule_never_checks_the_slot (req : CustomerAppointments.AuthRequest)
    (db : CustomerAppointments.Database Columns) (uid n : Z)
    (c : CustomerAppointments.Customer)
    (before after : list (CustomerAppointments.Appointment Columns))
    (a : CustomerAppointments.Appointment Columns)
    (fields : list (string * JsValue))
    (b : CustomerAppointments.Appointment Columns) (t : Z) :
  get "userId" (CustomerAppointments.user req) = JNumber uid ->
  parseInt (CustomerAppointments.appointmentId req) = Some n ->
  find (fun x => CustomerAppointments.customer_userId x =? uid)
       (CustomerAppointments.customers Columns db) = Some c ->
  CustomerAppointments.appointments Columns db = (before ++ a :: after)%list ->
  NoDup (map (CustomerAppointments.appointment_id Columns) (before ++ a :: after)) ->
  CustomerAppointments.appointment_id Columns a = n ->
  CustomerAppointments.appointment_customerId Columns a
    = CustomerAppointments.customer_id c ->
  CustomerAppointments.body req = JObject fields ->
  truthy (assoc "status" fields) = false ->
  truthy (assoc "scheduledDate" fields) = true ->
  Date_new (assoc "scheduledDate" fields) = TimeValue t ->
  assoc "notes" fields = JUndefined ->
  In b before \/ In b after ->
  Prisma.scheduled_date (CustomerAppointments.booking Columns b) = t ->
  blocks (Prisma.status (CustomerAppointments.booking Columns a)) = true ->
  blocks (Prisma.status (CustomerAppointments.booking Columns b)) = true ->
  (exists res : Response,
     snd (CustomerAppointments.updateAppointment Columns touch notesOf setNotes
          rowJsonIncluding req db) = Ok res
     /\ statusCode res = 200)
  /\ (2 <= List.length
             (filter (fun r => blocks (Prisma.status r)
                               && (Prisma.scheduled_date r =? t)%Z)
                     (CustomerAppointments.bookings Columns
                        (fst (CustomerAppointments.updateAppointment Columns touch notesOf setNotes
          rowJsonIncluding req db)))))%nat.
Proof.
  intros Huser Hid Hcustomer Htable Hnd Hn Howner Hbody Hstatus Hdate Hnew Hnotes
         Hb Hsame Hblocks_a Hblocks_b.
  rewrite (update_own_run req db uid n c before after a fields
             (Prisma.status (CustomerAppointments.booking Columns a)) t
             (notesOf (CustomerAppointments.columns Columns a))
             Huser Hid Hcustomer Htable Hnd Hn Howner Hbody).
  - cbn [fst snd]. split; [eexists; split; reflexivity |].
    unfold CustomerAppointments.bookings.
    cbn [CustomerAppointments.appointments]. rewrite map_app, filter_app.
    cbn [map filter CustomerAppointments.withData CustomerAppointments.booking
         Prisma.status Prisma.scheduled_date].
    rewrite Hblocks_a, Z.eqb_refl. cbn [andb]. rewrite length_app. cbn [List.length].
    assert (Hkeeps : (fun r => blocks (Prisma.status r)
                               && (Prisma.scheduled_date r =? t))
                       (CustomerAppointments.booking Columns b) = true).
    { cbn beta. rewrite Hblocks_b, Hsame, Z.eqb_refl. reflexivity. }
    destruct Hb as [Hb | Hb].
    + pose proof (kept_once _ _ _ (in_map (CustomerAppointments.booking Columns) _ _ Hb)
                    Hkeeps). lia.
    + pose proof (kept_once _ _ _ (in_map (CustomerAppointments.booking Columns) _ _ Hb)
                    Hkeeps). lia.
  - unfold js_or. rewrite Hstatus. apply status_round_trip.
  - now rewrite Hdate.
  - rewrite Hnotes. apply notes_round_trip.
Qed.

(** X25: the handler always answers, with 200, 404 or 500, and unless it
    answers 200 it leaves the database as it was. *)
Theorem update_changes_nothing_unless_200 (req : CustomerAppointments.AuthRequest)
    (db : CustomerAppointments.Database Columns) :
  exists res : Response,
    snd (CustomerAppointments.updateAppointment Columns touch notesOf setNotes
          rowJsonIncluding req db) = Ok res
    /\ (statusCode res = 200 \/ statusCode res = 404 \/ statusCode res = 500)
    /\ (statusCode res <> 200 ->
        fst (CustomerAppointments.updateAppointment Columns touch notesOf setNotes
          rowJsonIncluding req db) = db).
Proof.
  unfold CustomerAppointments.updateAppointment, CustomerAppointments.try_catch,
    CustomerAppointments.bind, CustomerAppointments.lift.
  destruct (CustomerAppointments.userIdOf req) as [userId | e].
  2:{ eexists. split; [reflexivity |]. cbn. auto. }
  destruct (destructure "status" (CustomerAppointments.body req)) as [status | e] eqn:Hs.
  2:{ eexists. split; [reflexivity |]. cbn. auto. }
  destruct (destructure "scheduledDate" (CustomerAppointments.body req))
    as [scheduledDate | e] eqn:Hd.
  2:{ eexists. split; [reflexivity |]. cbn. auto. }
  destruct (destructure "notes" (CustomerAppointments.body req)) as [notes | e] eqn:Hnt.
  2:{ eexists. split; [reflexivity |]. cbn. auto. }
  unfold CustomerAppointments.customer_findUnique.
  destruct userId; try (eexists; split; [reflexivity |]; cbn; now auto).
  destruct (find _ (CustomerAppointments.customers Columns db)) as [c |].
  2:{ eexists. split; [reflexivity |]. cbn. auto. }
  unfold CustomerAppointments.appointment_findFirst.
  destruct (parseInt (CustomerAppointments.appointmentId req)) as [id |].
  2:{ eexists. split; [reflexivity |]. cbn. auto. }
  destruct (find _ (CustomerAppointments.appointments Columns db)) as [a |].
  2:{ eexists. split; [reflexivity |]. cbn. auto. }
  unfold CustomerAppointments.appointment_updateData.
  destruct (CustomerAppointments.statusOfValue _) as [st |].
  2:{ eexists. split; [reflexivity |]. cbn. auto. }
  destruct (if truthy scheduledDate then _ else _) as [| t].
  1:{ eexists. split; [reflexivity |]. cbn. auto. }
  destruct (CustomerAppointments.notesOfValue _) as [nt |].
  2:{ eexists. split; [reflexivity |]. cbn. auto. }
  destruct (find _ (CustomerAppointments.appointments Columns db)) as [a' |].
  - eexists. split; [reflexivity |]. cbn. split; [auto | intros H; now elim H].
  - eexists. split; [reflexivity |]. cbn. auto.
Qed.

End Updating.

Lemma update_without_fields_keeps_the_bookings_witness :
  let rt := Host.runtime 0 in
  let req := updateRequest 11 "5" [] in
  (exists res : Response,
     snd (CustomerAppointments.updateAppointment (option string) keepNotes keepNotes
            writeNotes exampleRowJson req exampleDb) = Ok res
     /\ statusCode res = 200)
  /\ CustomerAppointments.bookings (option string)
       (fst (CustomerAppointments.updateAppointment (option string) keepNotes keepNotes
               writeNotes exampleRowJson req exampleDb))
     = CustomerAppointments.bookings (option string) exampleDb
  /\ CustomerAppointments.customers (option string)
       (fst (CustomerAppointments.updateAppointment (option string) keepNotes keepNotes
               writeNotes exampleRowJson req exampleDb))
     = CustomerAppointments.customers (option string) exampleDb.
Proof.
  intros rt req.
  refine (@update_without_fields_keeps_the_bookings rt (option string) keepNotes
            keepNotes writeNotes exampleRowJson req exampleDb 11 5 firstCustomer
            [] [otherAppointment] ownAppointment [] _ _ _ _ _ _ _ _ _ _ _);
    try reflexivity.
  repeat constructor; cbn; intuition discriminate.
Defined.

Lemma update_to_cancelled_is_cancel_witness :
  let rt := Host.runtime 0 in
  let req := updateRequest 11 "5" [("status", JString "cancelled")] in
  fst (CustomerAppointments.updateAppointment (option string) keepNotes keepNotes
         writeNotes exampleRowJson req exampleDb)
  = fst (CustomerAppointments.cancelAppointment (option string) keepNotes
           exampleRowJson req exampleDb)
  /\ (exists updated cancelled : Response,
        snd (CustomerAppointments.updateAppointment (option string) keepNotes keepNotes
               writeNotes exampleRowJson req exampleDb) = Ok updated
        /\ snd (CustomerAppointments.cancelAppointment (option string) keepNotes
                  exampleRowJson req exampleDb) = Ok cancelled
        /\ statusCode updated = 200 /\ statusCode cancelled = 200).
Proof.
  intros rt req.
  refine (@update_to_cancelled_is_cancel rt (option string) keepNotes exampleRowJson
            keepNotes writeNotes exampleRowJson req exampleDb 11 5 firstCustomer
            [] [otherAppointment] ownAppointment [("status", JString "cancelled")]
            _ _ _ _ _ _ _ _ _ _ _ _);
    try reflexivity.
  repeat constructor; cbn; intuition discriminate.
Defined.

Lemma reschedule_never_checks_the_slot_witness :
  let rt := Host.runtime 0 in
  let req := updateRequest 11 "5" [("scheduledDate", JNumber 1762768800000)] in
  (exists res : Response,
     snd (CustomerAppointments.updateAppointment (option string) keepNotes keepNotes
            writeNotes exampleRowJson req exampleDb) = Ok res
     /\ statusCode res = 200)
  /\ (2 <= List.length
             (filter (fun r => blocks (Prisma.status r)
                               && (Prisma.scheduled_date r =? 1762768800000)%Z)
                     (CustomerAppointments.bookings (option string)
                        (fst (CustomerAppointments.updateAppointment (option string)
                                keepNotes keepNotes writeNotes exampleRowJson
                                req exampleDb)))))%nat.
Proof.
  intros rt req.
  refine (@reschedule_never_checks_the_slot rt (option string) keepNotes
            keepNotes writeNotes exampleRowJson req exampleDb 11 5 firstCustomer
            [] [otherAppointment] ownAppointment
            [("scheduledDate", JNumber 1762768800000)] otherAppointment 1762768800000
            _ _ _ _ _ _ _ _ _ _ _ _ _ _ _ _);
    try reflexivity.
  - repeat constructor; cbn; intuition discriminate.
  - right. left. reflexivity.
Defined.
